(** * stripe-cli, package [logs]: the request-log tailer

    A shallow embedding of [Tailer.Run], [Tailer.processRequestLogEvent] and
    [colorizeStatus], with the calls they make to their collaborators
    (the authorizer, the websocket client, the logger, the terminal helpers,
    the JSON decoder) recorded in a trace.

    Go's [int] is modelled as [Z]: the code only compares the status with
    constants, so no wrap-around can occur there.  The one multiplication of
    the package, the reconnect interval, is on [int64] and has its
    wrap-around written out. *)

From Stdlib Require Import ZArith String List Bool Lia DecimalString.
Import ListNotations.

Local Open Scope string_scope.
Local Open Scope Z_scope.
Local Open Scope list_scope.

Infix "+++" := String.append (right associativity, at level 60).

(** ** Collaborating packages: the types this package sees *)

Module aurora.

Inductive Color := Red | Yellow | Green.

(** An [aurora.Value] as this package builds it: a colour method applied
    to an integer, then possibly [Bold()].  Whether the value is written
    with escape codes is decided by the Aurora that [ansi.Color] returns
    for the terminal; the record holds what the code asks for. *)
Record Value := mkValue { arg : Z; fg : Color; bold : bool }.

Definition Red_ (a : Z) : Value := mkValue a Red false.
Definition Yellow_ (a : Z) : Value := mkValue a Yellow false.
Definition Green_ (a : Z) : Value := mkValue a Green false.
Definition Bold (v : Value) : Value := mkValue (arg v) (fg v) true.

End aurora.

Module stripeauth.

(** Modelled from the spec: the session descriptor returned by
    [Authorize] is declared outside src; the spec gives it as endpoint
    address, session id, authorized feature and reconnect delay, and
    [Run] reads these four fields. *)
Record Session := mkSession {
  WebSocketURL : string;
  WebSocketID : string;
  WebSocketAuthorizedFeature : string;
  ReconnectDelay : Z
}.

End stripeauth.

Module websocket.

(** pkg/websocket/request_log_messages.go *)
Record RequestLogEvent := mkRequestLogEvent {
  EventPayload : string;
  RequestLogID : string;
  Type_ : string
}.

(** Modelled from the spec: [IncomingMessage] is declared outside src.
    The dispatcher tests its [RequestLogEvent] pointer against nil, so the
    message is a record whose request-log variant may be absent. *)
Record IncomingMessage := mkIncomingMessage {
  msg_RequestLogEvent : option RequestLogEvent
}.

(** The callback handed to the client.  The package has one. *)
Inductive EventHandler := EventHandlerFunc_processRequestLogEvent.

(** The fields of [websocket.Config] that [Run] fills in.  The logger is
    the tailer's own. *)
Record Config := mkConfig {
  NoWSS : bool;
  ReconnectInterval : Z;
  EventHandler_ : EventHandler
}.

(** What [NewClient] was given. *)
Record Client := mkClient {
  URL : string;
  WebSocketID : string;
  WebSocketAuthorizedFeature : string;
  Cfg : Config
}.

End websocket.

Module logs.

Definition outputFormatJSON : string := "json".

Record Config := mkConfig {
  APIBaseURL : string;
  DeviceName : string;
  Key : string;
  NoWSS : bool;
  OutputFormat : string;
  WebSocketFeature : string
}.

Inductive Signal := Interrupt | SIGTERM.

Record Tailer := mkTailer {
  cfg : Config;
  webSocketClient : option websocket.Client;
  (** the signals buffered in the channel, oldest first; [New] makes the
      channel with capacity 1 *)
  interruptCh : list Signal
}.

Record EventPayload := mkEventPayload {
  CreatedAt : string;
  Method : string;
  RequestID : string;
  Status : Z;
  URL : string
}.

(** [var payload EventPayload] *)
Definition zero_EventPayload : EventPayload :=
  mkEventPayload "" "" "" 0 "".

Definition New (c : Config) : Tailer := mkTailer c None [].

(** *** colorizeStatus *)

Definition colorizeStatus (status : Z) : aurora.Value :=
  if status >=? 500 then aurora.Bold (aurora.Red_ status)
  else if status >=? 400 then aurora.Bold (aurora.Yellow_ status)
  else aurora.Bold (aurora.Green_ status).

(** *** Effects *)

Inductive Goroutine := Main | Transport.
Inductive Logger := cfg_Log | std_Log.
Inductive Writer := cfg_Log_Out | os_Stdout.

(** The calls the package makes, as they appear in the source. *)
Inductive Call :=
| ansi_StartSpinner (msg : string) (out : Writer)
| signal_Notify (sigs : list Signal)
| stripeauth_Authorize (deviceName feature : string)
| Log_Fatalf (format : string) (err : string)
| websocket_NewClient (c : websocket.Client)
| go_webSocketClient_Run
| ansi_StopSpinner (spinner : string) (msg : string) (out : Writer)
| recv_interruptCh
| Log_Debug (l : Logger) (fields : list (string * string)) (msg : string)
| Log_Warn (msg : string)
| webSocketClient_Stop
| json_Unmarshal (data : string)
| ansi_ColorizeJSON (data : string) (out : Writer)
| fmt_Println (line : string)
| EventHandler_call (m : websocket.IncomingMessage).

Definition Trace := list (Goroutine * Call).

(** What the collaborators answer.  [Unmarshal data v] is
    [json.Unmarshal([]byte(data), &v)]: the value left in [v] and the
    error, if any.  [Sprintf_d] is how an [aurora.Value] prints under the
    verb [%d]. *)
Record Externals := mkExternals {
  Authorize : string -> string -> stripeauth.Session + string;
  Unmarshal : string -> EventPayload -> EventPayload * option string;
  ColorizeJSON : string -> string;
  Sprintf_d : aurora.Value -> string
}.

(** Modelled from the spec: the websocket client's life cycle.  Its code
    is outside src; the spec has it deliver parsed messages to the
    callback from [start] until [stop], and never after. *)
Inductive TransportState := NotStarted | Running | Stopped.

(** What happens around the tailer while it runs: a signal reaches the
    process, or the transport has parsed an inbound message. *)
Inductive Stimulus :=
| SigArrives (sig : Signal)
| Frame (m : websocket.IncomingMessage).

Record World := mkWorld {
  tailer : Tailer;
  transport : TransportState;
  (** the stimuli still to come once [signal.Notify] has registered the
      channel, grouped by the scheduling point of the main goroutine at
      which they happen *)
  sched : list (list Stimulus)
}.

Inductive Outcome (A : Type) :=
| Returned (a : A)
| Exited (code : Z)      (* os.Exit *)
| Blocked                (* waits on the channel for ever *)
| OutOfFuel.
Arguments Returned {A} a.
Arguments Exited {A} code.
Arguments Blocked {A}.
Arguments OutOfFuel {A}.

Definition M (A : Type) : Type :=
  Goroutine -> World -> Outcome A * World * Trace.

Definition ret {A} (a : A) : M A := fun _ w => (Returned a, w, []).

Definition bind {A B} (m : M A) (k : A -> M B) : M B :=
  fun g w =>
    match m g w with
    | (Returned a, w1, t1) =>
        match k a g w1 with (o, w2, t2) => (o, w2, t1 ++ t2) end
    | (Exited c, w1, t1) => (Exited c, w1, t1)
    | (Blocked, w1, t1) => (Blocked, w1, t1)
    | (OutOfFuel, w1, t1) => (OutOfFuel, w1, t1)
    end.

Notation "x <- m ;; k" := (bind m (fun x => k))
  (at level 61, m at next level, right associativity).
Notation "m ;; k" := (bind m (fun _ => k))
  (at level 61, right associativity).

Definition call (c : Call) : M unit := fun g w => (Returned tt, w, [(g, c)]).
Definition get_tailer : M Tailer := fun _ w => (Returned (tailer w), w, []).

Definition set_interruptCh (ch : list Signal) (w : World) : World :=
  mkWorld (mkTailer (cfg (tailer w)) (webSocketClient (tailer w)) ch)
          (transport w) (sched w).

Definition set_webSocketClient (c : option websocket.Client) (w : World) : World :=
  mkWorld (mkTailer (cfg (tailer w)) c (interruptCh (tailer w)))
          (transport w) (sched w).

Definition set_transport (st : TransportState) (w : World) : World :=
  mkWorld (tailer w) st (sched w).

Definition set_sched (sc : list (list Stimulus)) (w : World) : World :=
  mkWorld (tailer w) (transport w) sc.

(** Modelled from the spec: [start] begins delivery and does nothing on a
    client already started; a stopped client stays stopped. *)
Definition started (w : World) : World :=
  match transport w with
  | NotStarted => set_transport Running w
  | _ => w
  end.

(** [make(chan os.Signal, 1)] *)
Definition interruptCh_cap : nat := 1.

(** [signal.Notify] relays a signal with a send that does not block: a
    signal that finds the buffer full is dropped. *)
Definition send_nonblocking (sig : Signal) (ch : list Signal) : list Signal :=
  if Nat.ltb (length ch) interruptCh_cap then ch ++ [sig] else ch.

(** [time.Duration] is an int64 count of nanoseconds. *)
Definition wrap64 (z : Z) : Z := (z + 2 ^ 63) mod 2 ^ 64 - 2 ^ 63.
Definition time_Second : Z := 1000000000.

(** [for { ... }]: the body either returns from the function or goes round
    again. *)
Inductive LoopCtl (A : Type) :=
| Continue
| Return_ (a : A).
Arguments Continue {A}.
Arguments Return_ {A} a.

Fixpoint for_ {A} (fuel : nat) (body : M (LoopCtl A)) : M A :=
  match fuel with
  | O => fun _ w => (OutOfFuel, w, [])
  | S fuel' =>
      c <- body ;;
      match c with
      | Return_ a => ret a
      | Continue => for_ fuel' body
      end
  end.

Section Package.

Variable X : Externals.

(** *** processRequestLogEvent *)

Definition sprintf_line (payload : EventPayload) (coloredStatus : aurora.Value)
  : string :=
  CreatedAt payload +++ " [" +++ Sprintf_d X coloredStatus +++ "] "
    +++ Method payload +++ " " +++ URL payload +++ " " +++ RequestID payload.

Definition json_Unmarshal_into (data : string) (v : EventPayload)
  : M (EventPayload * option string) :=
  fun g w => (Returned (Unmarshal X data v), w, [(g, json_Unmarshal data)]).

Definition ColorizeJSON_to (data : string) (out : Writer) : M string :=
  fun g w => (Returned (ColorizeJSON X data), w, [(g, ansi_ColorizeJSON data out)]).

Definition processRequestLogEvent (msg : websocket.IncomingMessage) : M unit :=
  match websocket.msg_RequestLogEvent msg with
  | None =>
      call (Log_Warn "WebSocket specified for request logs received non-request-logs event")
  | Some requestLogEvent =>
      call (Log_Debug cfg_Log
              [("prefix", "logs.Tailer.processRequestLogEvent");
               ("webhook_id", websocket.RequestLogID requestLogEvent)]
              "Processing request log event") ;;
      t <- get_tailer ;;
      if String.eqb (OutputFormat (cfg t)) outputFormatJSON then
        colored <- ColorizeJSON_to (websocket.EventPayload requestLogEvent) os_Stdout ;;
        call (fmt_Println colored)
      else
        r <- json_Unmarshal_into (websocket.EventPayload requestLogEvent)
               zero_EventPayload ;;
        let payload := fst r in
        match snd r with
        | Some err => call (Log_Warn ("Received malformed payload: " +++ err))
        | None => ret tt
        end ;;
        let coloredStatus := colorizeStatus (Status payload) in
        let outputStr := sprintf_line payload coloredStatus in
        call (fmt_Println outputStr)
  end.

(** *** The goroutines and signals around [Run] *)

Definition deliver (st : Stimulus) : M unit :=
  fun _ w =>
    match st with
    | SigArrives sig =>
        (Returned tt,
         set_interruptCh (send_nonblocking sig (interruptCh (tailer w))) w, [])
    | Frame m =>
        match transport w with
        | Running =>
            (call (EventHandler_call m) ;; processRequestLogEvent m) Transport w
        | _ => (Returned tt, w, [])
        end
    end.

Fixpoint deliver_batch (b : list Stimulus) : M unit :=
  match b with
  | [] => ret tt
  | st :: b' => deliver st ;; deliver_batch b'
  end.

(** A scheduling point of the main goroutine: the next group of stimuli
    happens. *)
Definition yield : M unit :=
  fun g w =>
    match sched w with
    | [] => (Returned tt, w, [])
    | b :: bs => deliver_batch b g (set_sched bs w)
    end.

(** [<-tailer.interruptCh]: take the buffered signal, or let the world go on
    until one is there; with nothing more to come the receive never
    returns. *)
Fixpoint recv_loop (batches : list (list Stimulus)) (g : Goroutine) (w : World)
  : Outcome Signal * World * Trace :=
  match interruptCh (tailer w) with
  | sig :: rest => (Returned sig, set_interruptCh rest w, [])
  | [] =>
      match batches with
      | [] => (Blocked, w, [])
      | b :: bs =>
          match deliver_batch b g (set_sched bs w) with
          | (Returned _, w1, t1) =>
              match recv_loop bs g w1 with (o, w2, t2) => (o, w2, t1 ++ t2) end
          | (Exited c, w1, t1) => (Exited c, w1, t1)
          | (Blocked, w1, t1) => (Blocked, w1, t1)
          | (OutOfFuel, w1, t1) => (OutOfFuel, w1, t1)
          end
      end
  end.

Definition recv_from_interruptCh : M Signal :=
  fun g w =>
    match recv_loop (sched w) g w with
    | (Returned sig, w1, t1) => (Returned sig, w1, t1 ++ [(g, recv_interruptCh)])
    | r => r
    end.

(** *** Run *)

Definition StartSpinner (msg : string) (out : Writer) : M string :=
  fun g w => (Returned msg, w, [(g, ansi_StartSpinner msg out)]).

Definition Authorize_call (deviceName feature : string)
  : M (stripeauth.Session + string) :=
  fun g w => (Returned (Authorize X deviceName feature), w,
              [(g, stripeauth_Authorize deviceName feature)]).

(** logrus [Fatalf]: the entry is logged and the process exits with 1. *)
Definition Fatalf {A} (format : string) (err : string) : M A :=
  fun g w => (Exited 1, w, [(g, Log_Fatalf format err)]).

Definition NewClient (url id feature : string) (c : websocket.Config)
  : M websocket.Client :=
  fun g w => let cl := websocket.mkClient url id feature c in
             (Returned cl, w, [(g, websocket_NewClient cl)]).

Definition assign_webSocketClient (c : websocket.Client) : M unit :=
  fun _ w => (Returned tt, set_webSocketClient (Some c) w, []).

(** [go tailer.webSocketClient.Run()]: the statement returns at once; the
    client runs on its own goroutine. *)
Definition go_Run : M unit :=
  fun g w => (Returned tt, started w, [(g, go_webSocketClient_Run)]).

Definition Stop : M unit :=
  fun g w => (Returned tt, set_transport Stopped w, [(g, webSocketClient_Stop)]).

Definition ready_message : string :=
  "Ready! You're now waiting to receive API request logs (^C to quit)".

Definition Run (fuel : nat) : M (option string) :=
  s <- StartSpinner "Getting ready..." cfg_Log_Out ;;
  call (signal_Notify [Interrupt; SIGTERM]) ;;
  yield ;;
  t <- get_tailer ;;
  r <- Authorize_call (DeviceName (cfg t)) (WebSocketFeature (cfg t)) ;;
  session <- match r with
             | inr err => Fatalf "Error while authenticating with Stripe: %v" err
             | inl session => ret session
             end ;;
  yield ;;
  t <- get_tailer ;;
  c <- NewClient
         (stripeauth.WebSocketURL session)
         (stripeauth.WebSocketID session)
         (stripeauth.WebSocketAuthorizedFeature session)
         (websocket.mkConfig
            (NoWSS (cfg t))
            (wrap64 (wrap64 (stripeauth.ReconnectDelay session) * time_Second))
            websocket.EventHandlerFunc_processRequestLogEvent) ;;
  assign_webSocketClient c ;;
  yield ;;
  go_Run ;;
  yield ;;
  call (ansi_StopSpinner s ready_message cfg_Log_Out) ;;
  for_ fuel
    (recv_from_interruptCh ;;
     call (Log_Debug std_Log [("prefix", "logs.Tailer.Run")]
             "Ctrl+C received, cleaning up...") ;;
     yield ;;
     t <- get_tailer ;;
     match webSocketClient t with
     | Some _ => Stop
     | None => ret tt
     end ;;
     yield ;;
     call (Log_Debug std_Log [("prefix", "logs.Tailer.Run")] "Bye!") ;;
     ret (Return_ None)).

End Package.

(** *** Observations on a trace and on the world *)

Definition is_main (e : Goroutine * Call) : bool :=
  match fst e with Main => true | Transport => false end.

(** The calls of the main goroutine, in order. *)
Definition main_events (t : Trace) : list Call := map snd (filter is_main t).

Definition is_Stop (c : Call) : bool :=
  match c with webSocketClient_Stop => true | _ => false end.

Definition is_Unmarshal (c : Call) : bool :=
  match c with json_Unmarshal _ => true | _ => false end.

Definition is_ColorizeJSON (c : Call) : bool :=
  match c with ansi_ColorizeJSON _ _ => true | _ => false end.

Definition is_EventHandler_call (c : Call) : bool :=
  match c with EventHandler_call _ => true | _ => false end.

Definition count_calls (p : Call -> bool) (t : Trace) : nat :=
  length (filter (fun e => p (snd e)) t).

(** The lines written with [fmt.Println], in order. *)
Definition stdout_lines (t : Trace) : list string :=
  flat_map (fun e => match snd e with fmt_Println l => [l] | _ => [] end) t.

Definition is_SigArrives (st : Stimulus) : bool :=
  match st with SigArrives _ => true | Frame _ => false end.

Definition has_signal (sc : list (list Stimulus)) : bool :=
  existsb (existsb is_SigArrives) sc.

(** A signal is buffered in the channel or still to come. *)
Definition signal_pending (w : World) : bool :=
  match interruptCh (tailer w) with
  | [] => has_signal (sched w)
  | _ :: _ => true
  end.

(** The channel after a group of stimuli. *)
Definition ch_after (b : list Stimulus) (ch : list Signal) : list Signal :=
  fold_left
    (fun ch st =>
       match st with
       | SigArrives sig => send_nonblocking sig ch
       | Frame _ => ch
       end) b ch.

(** An event that the world around the main goroutine can add to the trace:
    one of the transport goroutine, and not a [Stop]. *)
Definition from_transport (e : Goroutine * Call) : bool :=
  match fst e with Main => false | Transport => negb (is_Stop (snd e)) end.

(** The world in which [New c] has just built the tailer. *)
Definition initial (c : Config) (sc : list (list Stimulus)) : World :=
  mkWorld (New c) NotStarted sc.

Definition with_OutputFormat (f : string) (w : World) : World :=
  mkWorld
    (mkTailer
       (mkConfig (APIBaseURL (cfg (tailer w))) (DeviceName (cfg (tailer w)))
                 (Key (cfg (tailer w))) (NoWSS (cfg (tailer w))) f
                 (WebSocketFeature (cfg (tailer w))))
       (webSocketClient (tailer w)) (interruptCh (tailer w)))
    (transport w) (sched w).

(** The client [Run] builds from the configuration and the session. *)
Definition client_of (c : Config) (session : stripeauth.Session)
  : websocket.Client :=
  websocket.mkClient
    (stripeauth.WebSocketURL session)
    (stripeauth.WebSocketID session)
    (stripeauth.WebSocketAuthorizedFeature session)
    (websocket.mkConfig (NoWSS c)
       (wrap64 (wrap64 (stripeauth.ReconnectDelay session) * time_Second))
       websocket.EventHandlerFunc_processRequestLogEvent).

(** No [StopSpinner] is written before the transport has called the event
    handler for the first time. *)
Fixpoint ready_not_before_first_event (t : Trace) : bool :=
  match t with
  | [] => true
  | (_, EventHandler_call _) :: _ => true
  | (_, ansi_StopSpinner _ _ _) :: _ => false
  | _ :: t' => ready_not_before_first_event t'
  end.

(** *** Sample collaborators, configurations and messages *)

Definition dq : string := String (Ascii.ascii_of_nat 34) EmptyString.

(** [{"status":404,"method":"GET"}] *)
Definition payload_404 : string :=
  "{" +++ dq +++ "status" +++ dq +++ ":404," +++ dq +++ "method" +++ dq +++ ":"
    +++ dq +++ "GET" +++ dq +++ "}".

(** A truncated document: a syntax error for the decoder. *)
Definition payload_truncated : string := "{" +++ dq +++ "status" +++ dq +++ ":".

Definition color_name (c : aurora.Color) : string :=
  match c with
  | aurora.Red => "red"
  | aurora.Yellow => "yellow"
  | aurora.Green => "green"
  end.

Definition sample_Externals : Externals :=
  mkExternals
    (fun deviceName feature =>
       if String.eqb deviceName "unknown-device" then inr "unauthorized"
       else inl (stripeauth.mkSession "wss://example.test/subscribe" "ws_1" feature 5))
    (fun data v =>
       if String.eqb data payload_404 then
         (mkEventPayload (CreatedAt v) "GET" (RequestID v) 404 (URL v), None)
       else if String.eqb data "{}" then (v, None)
       else (v, Some "unexpected end of JSON input"))
    (fun data => data)
    (fun v =>
       (if aurora.bold v then "bold " else "") +++ color_name (aurora.fg v) +++ " "
         +++ NilZero.string_of_int (Z.to_int (aurora.arg v))).

Definition cfg_human : Config :=
  mkConfig "https://api.example.test" "laptop" "sk_test_123" false "" "request_logs".

Definition cfg_json : Config :=
  mkConfig "https://api.example.test" "laptop" "sk_test_123" false "json" "request_logs".

Definition cfg_unknown_device : Config :=
  mkConfig "https://api.example.test" "unknown-device" "sk_test_123" false "" "request_logs".

Definition event_404 : websocket.RequestLogEvent :=
  websocket.mkRequestLogEvent payload_404 "resp_1" "request_log_event".

Definition event_truncated : websocket.RequestLogEvent :=
  websocket.mkRequestLogEvent payload_truncated "resp_2" "request_log_event".

Definition msg_404 : websocket.IncomingMessage := websocket.mkIncomingMessage (Some event_404).
Definition msg_truncated : websocket.IncomingMessage :=
  websocket.mkIncomingMessage (Some event_truncated).
Definition msg_other : websocket.IncomingMessage := websocket.mkIncomingMessage None.

(** The trace of the dispatcher on a request-log event, in human mode and
    in json mode. *)
Definition human_trace (X : Externals) (g : Goroutine)
  (ev : websocket.RequestLogEvent) : Trace :=
  let r := Unmarshal X (websocket.EventPayload ev) zero_EventPayload in
  [(g, Log_Debug cfg_Log
         [("prefix", "logs.Tailer.processRequestLogEvent");
          ("webhook_id", websocket.RequestLogID ev)]
         "Processing request log event");
   (g, json_Unmarshal (websocket.EventPayload ev))]
  ++ match snd r with
     | Some err => [(g, Log_Warn ("Received malformed payload: " +++ err))]
     | None => []
     end
  ++ [(g, fmt_Println (sprintf_line X (fst r) (colorizeStatus (Status (fst r)))))].

Definition json_trace (X : Externals) (g : Goroutine)
  (ev : websocket.RequestLogEvent) : Trace :=
  [(g, Log_Debug cfg_Log
         [("prefix", "logs.Tailer.processRequestLogEvent");
          ("webhook_id", websocket.RequestLogID ev)]
         "Processing request log event");
   (g, ansi_ColorizeJSON (websocket.EventPayload ev) os_Stdout);
   (g, fmt_Println (ColorizeJSON X (websocket.EventPayload ev)))].

(** What a step of the world around the main goroutine may do: it adds
    events of the transport goroutine only (none while the transport is not
    running), and leaves the configuration, the client pointer and the
    transport's state as they are. *)
Definition env_step (w w' : World) (t : Trace) : Prop :=
  forallb from_transport t = true
  /\ cfg (tailer w') = cfg (tailer w)
  /\ webSocketClient (tailer w') = webSocketClient (tailer w)
  /\ transport w' = transport w
  /\ (transport w <> Running -> t = []).

(** The calls of the main goroutine up to the ready message, and those of
    the shutdown. *)
Definition startup_calls (c : Config) (session : stripeauth.Session) : list Call :=
  [ansi_StartSpinner "Getting ready..." cfg_Log_Out;
   signal_Notify [Interrupt; SIGTERM];
   stripeauth_Authorize (DeviceName c) (WebSocketFeature c);
   websocket_NewClient (client_of c session);
   go_webSocketClient_Run;
   ansi_StopSpinner "Getting ready..." ready_message cfg_Log_Out].

Definition shutdown_calls : list Call :=
  [recv_interruptCh;
   Log_Debug std_Log [("prefix", "logs.Tailer.Run")] "Ctrl+C received, cleaning up...";
   webSocketClient_Stop;
   Log_Debug std_Log [("prefix", "logs.Tailer.Run")] "Bye!"].

Definition failure_calls (c : Config) (err : string) : list Call :=
  [ansi_StartSpinner "Getting ready..." cfg_Log_Out;
   signal_Notify [Interrupt; SIGTERM];
   stripeauth_Authorize (DeviceName c) (WebSocketFeature c);
   Log_Fatalf "Error while authenticating with Stripe: %v" err].

(** [runs m g w Q]: the result of [m] on goroutine [g] in world [w]
    satisfies [Q]. *)
Definition runs {A} (m : M A) (g : Goroutine) (w : World)
  (Q : Outcome A -> World -> Trace -> Prop) : Prop :=
  match m g w with (o, w', t) => Q o w' t end.

(** Every event of the trace is either one of the main goroutine or an
    event the world around it may add. *)
Definition others_quiet (t : Trace) : bool :=
  forallb (fun e => is_main e || from_transport e) t.

(** *** Further observations *)

Definition is_Warn (c : Call) : bool :=
  match c with Log_Warn _ => true | _ => false end.

(** The calls that belong to the coordinator: the spinner, the signal
    channel, the authorizer, the fatal log entry, and the building, starting
    and stopping of the websocket client. *)
Definition is_coordinator_call (c : Call) : bool :=
  match c with
  | ansi_StartSpinner _ _ | signal_Notify _ | stripeauth_Authorize _ _
  | Log_Fatalf _ _ | websocket_NewClient _ | go_webSocketClient_Run
  | ansi_StopSpinner _ _ _ | recv_interruptCh | webSocketClient_Stop => true
  | _ => false
  end.

Definition is_NewClient (c : Call) : bool :=
  match c with websocket_NewClient _ => true | _ => false end.

(** The line the dispatcher prints for a request-log event under
    configuration [c]. *)
Definition rendered (X : Externals) (c : Config)
  (ev : websocket.RequestLogEvent) : string :=
  if String.eqb (OutputFormat c) outputFormatJSON
  then ColorizeJSON X (websocket.EventPayload ev)
  else
    let p := fst (Unmarshal X (websocket.EventPayload ev) zero_EventPayload) in
    sprintf_line X p (colorizeStatus (Status p)).

(** The lines due for a sequence of inbound messages: one for each
    request-log event, in order. *)
Definition lines_of (X : Externals) (c : Config)
  (msgs : list websocket.IncomingMessage) : list string :=
  flat_map
    (fun m =>
       match websocket.msg_RequestLogEvent m with
       | Some ev => [rendered X c ev]
       | None => []
       end) msgs.

Definition is_request_log (m : websocket.IncomingMessage) : bool :=
  match websocket.msg_RequestLogEvent m with Some _ => true | None => false end.

(** The callback called on each message of a sequence, one after the
    other. *)
Fixpoint dispatch_all (X : Externals) (msgs : list websocket.IncomingMessage)
  : M unit :=
  match msgs with
  | [] => ret tt
  | m :: msgs' => processRequestLogEvent X m ;; dispatch_all X msgs'
  end.

(** Whatever [m] returns satisfies [P]. *)
Definition returns_only {A} (P : A -> Prop) (m : M A) : Prop :=
  forall g w a w' t, m g w = (Returned a, w', t) -> P a.

Definition event_other_id : websocket.RequestLogEvent :=
  websocket.mkRequestLogEvent payload_404 "resp_77" "webhook_event".

Definition session_5s : stripeauth.Session :=
  stripeauth.mkSession "wss://example.test/subscribe" "ws_1" "request_logs" 5.

(** What [Run] keeps, from the world [w0] it started in: the configuration,
    and the bound of the channel's buffer. *)
Definition Run_keeps (w0 w : World) : Prop :=
  cfg (tailer w) = cfg (tailer w0)
  /\ (length (interruptCh (tailer w)) <= interruptCh_cap)%nat.

Definition session_292_years : stripeauth.Session :=
  stripeauth.mkSession "wss://example.test/subscribe" "ws_1" "request_logs"
    9223372037.

(** The sample collaborators, with an authorizer that answers with a
    reconnect delay of 9223372037 seconds. *)
Definition long_delay_Externals : Externals :=
  mkExternals
    (fun _ _ => inl session_292_years)
    (Unmarshal sample_Externals) (ColorizeJSON sample_Externals)
    (Sprintf_d sample_Externals).

(** * Properties *)

(** ** colorizeStatus *)

Lemma colorizeStatus_spec (status : Z) :
  colorizeStatus status =
  aurora.mkValue status
    (if 500 <=? status then aurora.Red
     else if 400 <=? status then aurora.Yellow else aurora.Green) true.
Proof.
  unfold colorizeStatus.
  rewrite !Z.geb_leb.
  destruct (500 <=? status); [reflexivity|].
  destruct (400 <=? status); reflexivity.
Qed.

(** ** The dispatcher *)

Lemma processRequestLogEvent_human X ev g w :
  String.eqb (OutputFormat (cfg (tailer w))) outputFormatJSON = false ->
  processRequestLogEvent X (websocket.mkIncomingMessage (Some ev)) g w
  = (Returned tt, w, human_trace X g ev).
Proof.
  intros Hf.
  unfold processRequestLogEvent, human_trace, bind, call, get_tailer,
    json_Unmarshal_into; cbn.
  rewrite Hf; cbn.
  destruct (Unmarshal X (websocket.EventPayload ev) zero_EventPayload)
    as [p [err|]]; reflexivity.
Qed.

Lemma processRequestLogEvent_json X ev g w :
  String.eqb (OutputFormat (cfg (tailer w))) outputFormatJSON = true ->
  processRequestLogEvent X (websocket.mkIncomingMessage (Some ev)) g w
  = (Returned tt, w, json_trace X g ev).
Proof.
  intros Hf.
  unfold processRequestLogEvent, json_trace, bind, call, get_tailer,
    ColorizeJSON_to; cbn.
  rewrite Hf; reflexivity.
Qed.

Lemma processRequestLogEvent_other X g w :
  processRequestLogEvent X (websocket.mkIncomingMessage None) g w
  = (Returned tt, w,
     [(g, Log_Warn "WebSocket specified for request logs received non-request-logs event")]).
Proof. reflexivity. Qed.

(** C3: for a request-log event in human mode the dispatcher writes exactly
    one line, [<created-at> [<colorized status>] <method> <URL> <request-id>],
    and the status is coloured by its value alone: red and bold from 500 up,
    yellow and bold from 400 to 499, green and bold otherwise (zero and
    negative values included). *)
Theorem human_mode_one_line X ev g w :
  OutputFormat (cfg (tailer w)) <> "json" ->
  let payload := fst (Unmarshal X (websocket.EventPayload ev) zero_EventPayload) in
  (exists t,
      processRequestLogEvent X (websocket.mkIncomingMessage (Some ev)) g w
      = (Returned tt, w, t)
      /\ stdout_lines t =
         [CreatedAt payload +++ " [" +++ Sprintf_d X (colorizeStatus (Status payload))
            +++ "] " +++ Method payload +++ " " +++ URL payload +++ " "
            +++ RequestID payload])
  /\ (forall status, 500 <= status ->
        colorizeStatus status = aurora.mkValue status aurora.Red true)
  /\ (forall status, 400 <= status <= 499 ->
        colorizeStatus status = aurora.mkValue status aurora.Yellow true)
  /\ (forall status, status < 400 ->
        colorizeStatus status = aurora.mkValue status aurora.Green true).
Proof.
  intros Hf payload.
  apply String.eqb_neq in Hf.
  split; [|repeat split].
  - eexists; split; [apply processRequestLogEvent_human; exact Hf|].
    unfold human_trace, stdout_lines.
    subst payload.
    destruct (Unmarshal X (websocket.EventPayload ev) zero_EventPayload)
      as [p [err|]]; reflexivity.
  - intros status H. rewrite colorizeStatus_spec.
    destruct (Z.leb_spec 500 status); [reflexivity|lia].
  - intros status H. rewrite colorizeStatus_spec.
    destruct (Z.leb_spec 500 status); [lia|].
    destruct (Z.leb_spec 400 status); [reflexivity|lia].
  - intros status H. rewrite colorizeStatus_spec.
    destruct (Z.leb_spec 500 status); [lia|].
    destruct (Z.leb_spec 400 status); [lia|reflexivity].
Qed.

Lemma human_mode_one_line_witness :
  (exists t,
      processRequestLogEvent sample_Externals msg_404 Transport (initial cfg_human [])
      = (Returned tt, initial cfg_human [], t)
      /\ stdout_lines t = [" [bold yellow 404] GET  "])
  /\ colorizeStatus 503 = aurora.mkValue 503 aurora.Red true
  /\ colorizeStatus 404 = aurora.mkValue 404 aurora.Yellow true
  /\ colorizeStatus (-7) = aurora.mkValue (-7) aurora.Green true.
Proof.
  assert (Hf : OutputFormat (cfg (tailer (initial cfg_human []))) <> "json")
    by (simpl; discriminate).
  destruct (human_mode_one_line sample_Externals event_404 Transport
              (initial cfg_human []) Hf) as (H1 & H2 & H3 & H4).
  split; [exact H1|].
  split; [apply H2; lia|].
  split; [apply H3; lia|apply H4; lia].
Defined.

(** C4, as the code has it: 200 is green, 404 yellow, 500 red, 503 red,
    301 green and 999 red. *)
Theorem colorizeStatus_samples :
  aurora.fg (colorizeStatus 200) = aurora.Green
  /\ aurora.fg (colorizeStatus 404) = aurora.Yellow
  /\ aurora.fg (colorizeStatus 500) = aurora.Red
  /\ aurora.fg (colorizeStatus 503) = aurora.Red
  /\ aurora.fg (colorizeStatus 301) = aurora.Green
  /\ aurora.fg (colorizeStatus 999) = aurora.Red.
Proof. repeat split. Qed.

(** C4 as stated fails: 301 is below 400, so it is not yellow. *)
Lemma colorizeStatus_301_yellow_fails :
  ~ (aurora.fg (colorizeStatus 200) = aurora.Green
     /\ aurora.fg (colorizeStatus 404) = aurora.Yellow
     /\ aurora.fg (colorizeStatus 500) = aurora.Red
     /\ aurora.fg (colorizeStatus 503) = aurora.Red
     /\ aurora.fg (colorizeStatus 301) = aurora.Yellow
     /\ aurora.fg (colorizeStatus 999) = aurora.Red).
Proof.
  intros (_ & _ & _ & _ & H & _).
  vm_compute in H. discriminate H.
Qed.

(** C5: in human mode a payload that fails to decode is reported with a
    warning, and the line [<created-at> [<colorized status>] <method> <URL>
    <request-id>] is still printed, from the payload variable as the decoder
    left it (zero values where nothing was decoded).  The dispatcher returns
    normally with the tailer unchanged, and a well-formed event that comes
    next is decoded and rendered on a line of its own, without a warning. *)
Theorem malformed_payload_still_rendered X ev ev2 g w p err p2 :
  OutputFormat (cfg (tailer w)) <> "json" ->
  Unmarshal X (websocket.EventPayload ev) zero_EventPayload = (p, Some err) ->
  Unmarshal X (websocket.EventPayload ev2) zero_EventPayload = (p2, None) ->
  processRequestLogEvent X (websocket.mkIncomingMessage (Some ev)) g w
  = (Returned tt, w,
     [(g, Log_Debug cfg_Log
            [("prefix", "logs.Tailer.processRequestLogEvent");
             ("webhook_id", websocket.RequestLogID ev)]
            "Processing request log event");
      (g, json_Unmarshal (websocket.EventPayload ev));
      (g, Log_Warn ("Received malformed payload: " +++ err));
      (g, fmt_Println
            (CreatedAt p +++ " [" +++ Sprintf_d X (colorizeStatus (Status p))
               +++ "] " +++ Method p +++ " " +++ URL p +++ " " +++ RequestID p))])
  /\ (processRequestLogEvent X (websocket.mkIncomingMessage (Some ev)) ;;
      processRequestLogEvent X (websocket.mkIncomingMessage (Some ev2))) g w
     = (Returned tt, w,
        [(g, Log_Debug cfg_Log
               [("prefix", "logs.Tailer.processRequestLogEvent");
                ("webhook_id", websocket.RequestLogID ev)]
               "Processing request log event");
         (g, json_Unmarshal (websocket.EventPayload ev));
         (g, Log_Warn ("Received malformed payload: " +++ err));
         (g, fmt_Println
               (CreatedAt p +++ " [" +++ Sprintf_d X (colorizeStatus (Status p))
                  +++ "] " +++ Method p +++ " " +++ URL p +++ " " +++ RequestID p));
         (g, Log_Debug cfg_Log
               [("prefix", "logs.Tailer.processRequestLogEvent");
                ("webhook_id", websocket.RequestLogID ev2)]
               "Processing request log event");
         (g, json_Unmarshal (websocket.EventPayload ev2));
         (g, fmt_Println
               (CreatedAt p2 +++ " [" +++ Sprintf_d X (colorizeStatus (Status p2))
                  +++ "] " +++ Method p2 +++ " " +++ URL p2 +++ " "
                  +++ RequestID p2))])
  /\ stdout_lines
       (snd ((processRequestLogEvent X (websocket.mkIncomingMessage (Some ev)) ;;
              processRequestLogEvent X (websocket.mkIncomingMessage (Some ev2)))
               g w))
     = [CreatedAt p +++ " [" +++ Sprintf_d X (colorizeStatus (Status p))
          +++ "] " +++ Method p +++ " " +++ URL p +++ " " +++ RequestID p;
        CreatedAt p2 +++ " [" +++ Sprintf_d X (colorizeStatus (Status p2))
          +++ "] " +++ Method p2 +++ " " +++ URL p2 +++ " " +++ RequestID p2].
Proof.
  intros Hf Hd Hd2.
  apply String.eqb_neq in Hf.
  assert (H1 : processRequestLogEvent X (websocket.mkIncomingMessage (Some ev)) g w
               = (Returned tt, w, human_trace X g ev))
    by (apply processRequestLogEvent_human; exact Hf).
  assert (H2 : processRequestLogEvent X (websocket.mkIncomingMessage (Some ev2)) g w
               = (Returned tt, w, human_trace X g ev2))
    by (apply processRequestLogEvent_human; exact Hf).
  assert (H12 : (processRequestLogEvent X (websocket.mkIncomingMessage (Some ev)) ;;
                 processRequestLogEvent X (websocket.mkIncomingMessage (Some ev2)))
                  g w
                = (Returned tt, w, human_trace X g ev ++ human_trace X g ev2))
    by (unfold bind at 1; rewrite H1, H2; reflexivity).
  rewrite H12, H1. unfold human_trace. rewrite Hd, Hd2.
  split; [reflexivity|]. split; reflexivity.
Qed.

Lemma malformed_payload_still_rendered_witness :
  processRequestLogEvent sample_Externals msg_truncated Transport (initial cfg_human [])
  = (Returned tt, initial cfg_human [],
     [(Transport, Log_Debug cfg_Log
            [("prefix", "logs.Tailer.processRequestLogEvent");
             ("webhook_id", "resp_2")]
            "Processing request log event");
      (Transport, json_Unmarshal payload_truncated);
      (Transport, Log_Warn "Received malformed payload: unexpected end of JSON input");
      (Transport, fmt_Println " [bold green 0]   ")])
  /\ (processRequestLogEvent sample_Externals msg_truncated ;;
      processRequestLogEvent sample_Externals msg_404)
       Transport (initial cfg_human [])
     = (Returned tt, initial cfg_human [],
        [(Transport, Log_Debug cfg_Log
               [("prefix", "logs.Tailer.processRequestLogEvent");
                ("webhook_id", "resp_2")]
               "Processing request log event");
         (Transport, json_Unmarshal payload_truncated);
         (Transport, Log_Warn "Received malformed payload: unexpected end of JSON input");
         (Transport, fmt_Println " [bold green 0]   ");
         (Transport, Log_Debug cfg_Log
               [("prefix", "logs.Tailer.processRequestLogEvent");
                ("webhook_id", "resp_1")]
               "Processing request log event");
         (Transport, json_Unmarshal payload_404);
         (Transport, fmt_Println " [bold yellow 404] GET  ")])
  /\ stdout_lines
       (snd ((processRequestLogEvent sample_Externals msg_truncated ;;
              processRequestLogEvent sample_Externals msg_404)
               Transport (initial cfg_human [])))
     = [" [bold green 0]   "; " [bold yellow 404] GET  "].
Proof.
  assert (Hf : OutputFormat (cfg (tailer (initial cfg_human []))) <> "json")
    by (simpl; discriminate).
  exact (malformed_payload_still_rendered sample_Externals event_truncated
           event_404 Transport (initial cfg_human [])
           zero_EventPayload "unexpected end of JSON input"
           (mkEventPayload "" "GET" "" 404 "") Hf eq_refl eq_refl).
Defined.

(** C6: a message without a request-log event is reported with a warning
    and dropped: nothing is written to stdout, the dispatcher returns
    normally, and the transport's delivery of it returns normally too. *)
Theorem non_request_log_message_discarded X msg g w :
  websocket.msg_RequestLogEvent msg = None ->
  processRequestLogEvent X msg g w
  = (Returned tt, w,
     [(g, Log_Warn "WebSocket specified for request logs received non-request-logs event")])
  /\ stdout_lines (snd (processRequestLogEvent X msg g w)) = []
  /\ (transport w = Running ->
      deliver X (Frame msg) g w
      = (Returned tt, w,
         [(Transport, EventHandler_call msg);
          (Transport,
           Log_Warn "WebSocket specified for request logs received non-request-logs event")])).
Proof.
  intros Hm. destruct msg as [o]; cbn in Hm; subst o.
  rewrite processRequestLogEvent_other.
  split; [reflexivity|]. split; [reflexivity|].
  intros Hr. unfold deliver. rewrite Hr.
  unfold bind, call. rewrite processRequestLogEvent_other. reflexivity.
Qed.

Lemma non_request_log_message_discarded_witness :
  processRequestLogEvent sample_Externals msg_other Transport (initial cfg_human [])
  = (Returned tt, initial cfg_human [],
     [(Transport,
       Log_Warn "WebSocket specified for request logs received non-request-logs event")])
  /\ stdout_lines
       (snd (processRequestLogEvent sample_Externals msg_other Transport
               (initial cfg_human []))) = [].
Proof.
  destruct (non_request_log_message_discarded sample_Externals msg_other Transport
              (initial cfg_human []) eq_refl) as (H1 & H2 & _).
  split; [exact H1|exact H2].
Defined.

(** C7: in json mode the dispatcher prints the raw payload, colorized, and
    returns; the decoder is not called and the result does not depend on
    it.  Outside json mode the decoder is called once. *)
Theorem json_mode_prints_raw_payload X ev g w :
  (OutputFormat (cfg (tailer w)) = "json" ->
   processRequestLogEvent X (websocket.mkIncomingMessage (Some ev)) g w
   = (Returned tt, w,
      [(g, Log_Debug cfg_Log
             [("prefix", "logs.Tailer.processRequestLogEvent");
              ("webhook_id", websocket.RequestLogID ev)]
             "Processing request log event");
       (g, ansi_ColorizeJSON (websocket.EventPayload ev) os_Stdout);
       (g, fmt_Println (ColorizeJSON X (websocket.EventPayload ev)))])
   /\ count_calls is_Unmarshal
        (snd (processRequestLogEvent X (websocket.mkIncomingMessage (Some ev)) g w))
      = 0%nat
   /\ forall decoder,
        processRequestLogEvent
          (mkExternals (Authorize X) decoder (ColorizeJSON X) (Sprintf_d X))
          (websocket.mkIncomingMessage (Some ev)) g w
        = processRequestLogEvent X (websocket.mkIncomingMessage (Some ev)) g w)
  /\ (OutputFormat (cfg (tailer w)) <> "json" ->
      count_calls is_Unmarshal
        (snd (processRequestLogEvent X (websocket.mkIncomingMessage (Some ev)) g w))
      = 1%nat
      /\ count_calls is_ColorizeJSON
           (snd (processRequestLogEvent X (websocket.mkIncomingMessage (Some ev)) g w))
         = 0%nat).
Proof.
  split; intros Hf.
  - assert (Hb : String.eqb (OutputFormat (cfg (tailer w))) outputFormatJSON = true)
      by (apply String.eqb_eq; exact Hf).
    rewrite (processRequestLogEvent_json X ev g w Hb).
    split; [reflexivity|]. split; [reflexivity|].
    intros decoder.
    rewrite (processRequestLogEvent_json _ ev g w Hb). reflexivity.
  - apply String.eqb_neq in Hf.
    rewrite (processRequestLogEvent_human X ev g w Hf).
    unfold human_trace.
    destruct (Unmarshal X (websocket.EventPayload ev) zero_EventPayload)
      as [p [err|]]; split; reflexivity.
Qed.

Lemma json_mode_prints_raw_payload_witness :
  processRequestLogEvent sample_Externals msg_404 Transport (initial cfg_json [])
  = (Returned tt, initial cfg_json [],
     [(Transport, Log_Debug cfg_Log
            [("prefix", "logs.Tailer.processRequestLogEvent");
             ("webhook_id", "resp_1")]
            "Processing request log event");
      (Transport, ansi_ColorizeJSON payload_404 os_Stdout);
      (Transport, fmt_Println payload_404)])
  /\ count_calls is_Unmarshal
       (snd (processRequestLogEvent sample_Externals msg_404 Transport
               (initial cfg_human []))) = 1%nat.
Proof.
  split.
  - apply (proj1 (json_mode_prints_raw_payload sample_Externals event_404 Transport
                    (initial cfg_json [])) eq_refl).
  - apply (proj2 (json_mode_prints_raw_payload sample_Externals event_404 Transport
                    (initial cfg_human []))).
    simpl; discriminate.
Defined.

(** C10: json rendering is chosen exactly when the configured format is the
    string [json]; any other value, among them the empty string, [JSON] and
    [human], takes the human rendering, and the dispatcher returns normally
    for every value. *)
Theorem json_only_for_exact_string X ev g w :
  let run f :=
    processRequestLogEvent X (websocket.mkIncomingMessage (Some ev)) g
      (with_OutputFormat f w) in
  run "json" = (Returned tt, with_OutputFormat "json" w, json_trace X g ev)
  /\ (forall f, f <> "json" ->
        run f = (Returned tt, with_OutputFormat f w, human_trace X g ev))
  /\ run "" = (Returned tt, with_OutputFormat "" w, human_trace X g ev)
  /\ run "JSON" = (Returned tt, with_OutputFormat "JSON" w, human_trace X g ev)
  /\ run "human" = (Returned tt, with_OutputFormat "human" w, human_trace X g ev)
  /\ (forall f, exists t, run f = (Returned tt, with_OutputFormat f w, t)).
Proof.
  intros run. subst run. cbv beta.
  assert (Hh : forall f, f <> "json" ->
             processRequestLogEvent X (websocket.mkIncomingMessage (Some ev)) g
               (with_OutputFormat f w)
             = (Returned tt, with_OutputFormat f w, human_trace X g ev)).
  { intros f Hf. apply processRequestLogEvent_human.
    cbn. apply String.eqb_neq. exact Hf. }
  split; [apply processRequestLogEvent_json; reflexivity|].
  split; [exact Hh|].
  split; [apply Hh; discriminate|].
  split; [apply Hh; discriminate|].
  split; [apply Hh; discriminate|].
  intros f. destruct (String.eqb_spec f "json") as [->|Hf].
  - eexists. apply processRequestLogEvent_json. reflexivity.
  - eexists. apply Hh. exact Hf.
Qed.

Lemma json_only_for_exact_string_witness :
  processRequestLogEvent sample_Externals msg_404 Transport
    (with_OutputFormat "Json" (initial cfg_json []))
  = (Returned tt, with_OutputFormat "Json" (initial cfg_json []),
     human_trace sample_Externals Transport event_404).
Proof.
  apply (proj1 (proj2 (json_only_for_exact_string sample_Externals event_404
                         Transport (initial cfg_json [])))).
  discriminate.
Defined.

(** ** The world around the main goroutine *)

Lemma main_events_app t1 t2 :
  main_events (t1 ++ t2) = main_events t1 ++ main_events t2.
Proof. unfold main_events. rewrite filter_app, map_app. reflexivity. Qed.

Lemma main_events_quiet t :
  forallb from_transport t = true -> main_events t = [].
Proof.
  induction t as [|[g c] t IH]; [reflexivity|].
  cbn. destruct g; cbn; [discriminate|].
  intros H. apply andb_prop in H. apply IH. apply H.
Qed.

Lemma env_step_refl w : env_step w w [].
Proof. repeat split. Qed.

Lemma env_step_trans w w1 w2 t1 t2 :
  env_step w w1 t1 -> env_step w1 w2 t2 -> env_step w w2 (t1 ++ t2).
Proof.
  intros (A1 & A2 & A3 & A4 & A5) (B1 & B2 & B3 & B4 & B5).
  repeat split.
  - rewrite forallb_app, A1, B1. reflexivity.
  - congruence.
  - congruence.
  - congruence.
  - intros H. rewrite (A5 H), B5; [reflexivity|congruence].
Qed.

Lemma processRequestLogEvent_returns X msg w :
  exists t,
    processRequestLogEvent X msg Transport w = (Returned tt, w, t)
    /\ forallb from_transport t = true.
Proof.
  destruct msg as [[ev|]].
  - destruct (String.eqb (OutputFormat (cfg (tailer w))) outputFormatJSON) eqn:Hf.
    + rewrite (processRequestLogEvent_json X ev Transport w Hf).
      eexists; split; reflexivity.
    + rewrite (processRequestLogEvent_human X ev Transport w Hf).
      eexists; split; [reflexivity|].
      unfold human_trace.
      destruct (snd (Unmarshal X (websocket.EventPayload ev) zero_EventPayload));
        reflexivity.
  - rewrite processRequestLogEvent_other. eexists; split; reflexivity.
Qed.

Lemma deliver_spec X st g w :
  exists w' t,
    deliver X st g w = (Returned tt, w', t)
    /\ env_step w w' t
    /\ sched w' = sched w
    /\ interruptCh (tailer w') = ch_after [st] (interruptCh (tailer w)).
Proof.
  destruct st as [sig|m]; cbn.
  - eexists; eexists; split; [reflexivity|].
    repeat split.
  - destruct (transport w) eqn:Ht;
      try (exists w, []; split; [reflexivity|]; repeat split; assumption).
    destruct (processRequestLogEvent_returns X m w) as (t & E & Q).
    unfold bind, call. rewrite E.
    eexists; eexists; split; [reflexivity|].
    repeat split; try assumption.
    intros H; contradiction H; reflexivity.
Qed.

Lemma deliver_batch_spec X b :
  forall g w,
  exists w' t,
    deliver_batch X b g w = (Returned tt, w', t)
    /\ env_step w w' t
    /\ sched w' = sched w
    /\ interruptCh (tailer w') = ch_after b (interruptCh (tailer w)).
Proof.
  induction b as [|st b IH]; intros g w.
  - exists w, []. split; [reflexivity|].
    split; [apply env_step_refl|]. split; reflexivity.
  - destruct (deliver_spec X st g w) as (w1 & t1 & E1 & S1 & Sc1 & C1).
    destruct (IH g w1) as (w2 & t2 & E2 & S2 & Sc2 & C2).
    exists w2, (t1 ++ t2).
    split.
    + cbn [deliver_batch]. unfold bind. rewrite E1, E2. reflexivity.
    + split; [exact (env_step_trans _ _ _ _ _ S1 S2)|].
      split; [congruence|].
      rewrite C2, C1. reflexivity.
Qed.

Lemma ch_after_full b sig ch : ch_after b (sig :: ch) = sig :: ch.
Proof.
  induction b as [|[s|m] b IH]; [reflexivity| |exact IH].
  cbn. exact IH.
Qed.

Lemma ch_after_empty b :
  match ch_after b [] with
  | [] => existsb is_SigArrives b = false
  | _ :: _ => existsb is_SigArrives b = true
  end.
Proof.
  induction b as [|[s|m] b IH]; [reflexivity| |exact IH].
  cbn. rewrite ch_after_full. reflexivity.
Qed.

Lemma signal_pending_after b bs w w' :
  sched w = b :: bs ->
  sched w' = bs ->
  interruptCh (tailer w') = ch_after b (interruptCh (tailer w)) ->
  signal_pending w' = signal_pending w.
Proof.
  unfold signal_pending. intros -> -> ->.
  destruct (interruptCh (tailer w)) as [|sig ch].
  - pose proof (ch_after_empty b) as H.
    cbn [has_signal existsb].
    destruct (ch_after b []); rewrite H; reflexivity.
  - rewrite ch_after_full. reflexivity.
Qed.

Lemma yield_spec X g w :
  exists w' t,
    yield X g w = (Returned tt, w', t)
    /\ env_step w w' t
    /\ signal_pending w' = signal_pending w.
Proof.
  unfold yield. destruct (sched w) as [|b bs] eqn:Hs.
  - exists w, []. split; [reflexivity|]. split; [apply env_step_refl|reflexivity].
  - destruct (deliver_batch_spec X b g (set_sched bs w)) as (w' & t & E & S & Sc & C).
    exists w', t. split; [exact E|]. split; [exact S|].
    apply (signal_pending_after b bs); assumption.
Qed.


Lemma recv_loop_spec X batches :
  forall g w,
    sched w = batches ->
    exists o w' t,
      recv_loop X batches g w = (o, w', t)
      /\ env_step w w' t
      /\ if signal_pending w then exists sig, o = Returned sig else o = Blocked.
Proof.
  induction batches as [|b bs IH]; intros g w Hs.
  - cbn [recv_loop]. unfold signal_pending. rewrite Hs.
    destruct (interruptCh (tailer w)) as [|sig rest].
    + exists Blocked, w, []. split; [reflexivity|].
      split; [apply env_step_refl|reflexivity].
    + eexists; eexists; eexists. split; [reflexivity|].
      split; [repeat split|exists sig; reflexivity].
  - cbn [recv_loop].
    destruct (interruptCh (tailer w)) as [|sig rest] eqn:Hc.
    + destruct (deliver_batch_spec X b g (set_sched bs w))
        as (w1 & t1 & E1 & S1 & Sc1 & C1).
      rewrite E1.
      destruct (IH g w1 Sc1) as (o & w2 & t2 & E2 & S2 & P2).
      rewrite E2.
      exists o, w2, (t1 ++ t2). split; [reflexivity|].
      split; [exact (env_step_trans _ _ _ _ _ S1 S2)|].
      rewrite <- (signal_pending_after b bs w w1 Hs Sc1 C1). exact P2.
    + eexists; eexists; eexists. split; [reflexivity|].
      split; [repeat split|].
      unfold signal_pending. rewrite Hc. exists sig; reflexivity.
Qed.

Lemma recv_from_interruptCh_spec X w :
  exists o w' t,
    recv_from_interruptCh X Main w = (o, w', t)
    /\ cfg (tailer w') = cfg (tailer w)
    /\ webSocketClient (tailer w') = webSocketClient (tailer w)
    /\ transport w' = transport w
    /\ if signal_pending w
       then exists sig te, o = Returned sig
                           /\ t = te ++ [(Main, recv_interruptCh)]
                           /\ forallb from_transport te = true
       else o = Blocked /\ forallb from_transport t = true.
Proof.
  unfold recv_from_interruptCh.
  destruct (recv_loop_spec X (sched w) Main w eq_refl)
    as (o & w' & t & E & (Q & A & B & C & _) & P).
  rewrite E.
  destruct (signal_pending w).
  - destruct P as [sig ->].
    eexists; eexists; eexists. split; [reflexivity|].
    repeat split; try assumption.
    exists sig, t. repeat split. exact Q.
  - subst o.
    eexists; eexists; eexists. split; [reflexivity|].
    repeat split; assumption.
Qed.

(** ** Run *)

Lemma runs_elim {A} (m : M A) g w Q :
  runs m g w Q -> exists o w' t, m g w = (o, w', t) /\ Q o w' t.
Proof.
  unfold runs. destruct (m g w) as [[o w'] t].
  intros H. exists o, w', t. split; [reflexivity|exact H].
Qed.

Lemma runs_bind {A B} (m : M A) (k : A -> M B) g w Q :
  runs m g w
    (fun o w1 t1 =>
       match o with
       | Returned a => runs (k a) g w1 (fun o2 w2 t2 => Q o2 w2 (t1 ++ t2))
       | Exited c => Q (Exited c) w1 t1
       | Blocked => Q Blocked w1 t1
       | OutOfFuel => Q OutOfFuel w1 t1
       end) ->
  runs (bind m k) g w Q.
Proof.
  unfold runs, bind. destruct (m g w) as [[o w1] t1].
  destruct o; auto.
  destruct (k a g w1) as [[o2 w2] t2]. auto.
Qed.

Lemma runs_step {A B} (m : M A) (k : A -> M B) g w Q a w1 t1 :
  m g w = (Returned a, w1, t1) ->
  runs (k a) g w1 (fun o2 w2 t2 => Q o2 w2 (t1 ++ t2)) ->
  runs (bind m k) g w Q.
Proof.
  intros E H. apply runs_bind. unfold runs at 1. rewrite E. exact H.
Qed.

Lemma runs_yield {B} X (k : unit -> M B) w Q :
  (forall w1 t1,
      env_step w w1 t1 ->
      signal_pending w1 = signal_pending w ->
      runs (k tt) Main w1 (fun o2 w2 t2 => Q o2 w2 (t1 ++ t2))) ->
  runs (bind (yield X) k) Main w Q.
Proof.
  intros H.
  destruct (yield_spec X Main w) as (w1 & t1 & E & S & P).
  apply (runs_step _ _ _ _ _ _ _ _ E). apply H; assumption.
Qed.

Lemma started_tailer w : tailer (started w) = tailer w.
Proof. unfold started. destruct (transport w); reflexivity. Qed.

Lemma started_pending w : signal_pending (started w) = signal_pending w.
Proof. unfold started. destruct (transport w); reflexivity. Qed.

Lemma runs_recv {B} X (k : Signal -> M B) w Q :
  (if signal_pending w then
     forall sig w1 te,
       cfg (tailer w1) = cfg (tailer w) ->
       webSocketClient (tailer w1) = webSocketClient (tailer w) ->
       transport w1 = transport w ->
       forallb from_transport te = true ->
       runs (k sig) Main w1
         (fun o2 w2 t2 => Q o2 w2 ((te ++ [(Main, recv_interruptCh)]) ++ t2))
   else
     forall w1 t1,
       transport w1 = transport w ->
       forallb from_transport t1 = true ->
       Q Blocked w1 t1) ->
  runs (bind (recv_from_interruptCh X) k) Main w Q.
Proof.
  intros H.
  destruct (recv_from_interruptCh_spec X w) as (o & w1 & t1 & E & A & B0 & C & P).
  apply runs_bind. unfold runs at 1. rewrite E.
  destruct (signal_pending w).
  - destruct P as (sig & te & -> & -> & Hq). apply H; assumption.
  - destruct P as (-> & Hq). apply H; assumption.
Qed.

Lemma count_Stop_main t :
  others_quiet t = true ->
  count_calls is_Stop t = length (filter is_Stop (main_events t)).
Proof.
  unfold count_calls, main_events, others_quiet.
  induction t as [|[g c] t IH]; [reflexivity|].
  cbn. intros H. apply andb_prop in H. destruct H as [Hc Ht].
  destruct g; cbn in *.
  - destruct (is_Stop c); cbn; rewrite (IH Ht); reflexivity.
  - apply negb_true_iff in Hc. rewrite Hc. apply IH. exact Ht.
Qed.

Lemma others_quiet_app t1 t2 :
  others_quiet (t1 ++ t2) = others_quiet t1 && others_quiet t2.
Proof. apply forallb_app. Qed.

Lemma others_quiet_transport t :
  forallb from_transport t = true -> others_quiet t = true.
Proof.
  unfold others_quiet.
  induction t as [|[g c] t IH]; [reflexivity|].
  cbn. intros H. apply andb_prop in H. destruct H as [Hc Ht].
  rewrite (IH Ht). destruct g; cbn in *; [reflexivity|].
  rewrite Hc. reflexivity.
Qed.

Ltac quiet_traces :=
  repeat match goal with
         | H : forallb from_transport ?t = true |- _ =>
             rewrite ?(main_events_quiet t H), ?(others_quiet_transport t H);
             clear H
         end.

Ltac trace_goal :=
  cbv beta; rewrite ?main_events_app, ?others_quiet_app; quiet_traces.

Lemma Run_spec X fuel w :
  let c := cfg (tailer w) in
  exists o w' t,
    Run X fuel Main w = (o, w', t)
    /\ others_quiet t = true
    /\ match Authorize X (DeviceName c) (WebSocketFeature c) with
       | inr err =>
           o = Exited 1
           /\ main_events t = failure_calls c err
           /\ webSocketClient (tailer w') = webSocketClient (tailer w)
           /\ transport w' = transport w
           /\ (transport w <> Running -> t = map (pair Main) (failure_calls c err))
       | inl session =>
           match fuel with
           | O => o = OutOfFuel /\ main_events t = startup_calls c session
           | S _ =>
               if signal_pending w then
                 o = Returned None
                 /\ main_events t = startup_calls c session ++ shutdown_calls
                 /\ transport w' = Stopped
               else
                 o = Blocked
                 /\ main_events t = startup_calls c session
                 /\ (transport w = NotStarted -> transport w' = Running)
           end
       end.
Proof.
  intros c. apply runs_elim. unfold Run.
  eapply runs_step; [reflexivity|].
  eapply runs_step; [reflexivity|].
  apply runs_yield; intros w1 t1 (Q1 & C1 & L1 & T1 & I1) P1.
  eapply runs_step; [reflexivity|].
  eapply runs_step; [reflexivity|].
  rewrite C1. fold c.
  destruct (Authorize X (DeviceName c) (WebSocketFeature c)) as [session|err].
  2:{ apply runs_bind. unfold runs at 1, Fatalf.
      split; [|split; [reflexivity|]].
      { trace_goal. reflexivity. }
      split; [trace_goal; reflexivity|].
      split; [exact L1|]. split; [exact T1|].
      intros Hn. rewrite (I1 Hn). reflexivity. }
  eapply runs_step; [reflexivity|].
  apply runs_yield; intros w2 t2 (Q2 & C2 & L2 & T2 & I2) P2.
  eapply runs_step; [reflexivity|].
  eapply runs_step; [reflexivity|].
  eapply runs_step; [reflexivity|].
  apply runs_yield; intros w3 t3 (Q3 & C3 & L3 & T3 & I3) P3.
  eapply runs_step; [reflexivity|].
  apply runs_yield; intros w4 t4 (Q4 & C4 & L4 & T4 & I4) P4.
  eapply runs_step; [reflexivity|].
  cbn in C3, L3, T3.
  rewrite started_tailer in C4, L4. rewrite started_pending in P4.
  assert (HP : signal_pending w4 = signal_pending w).
  { rewrite P4, P3. change (signal_pending w2 = signal_pending w).
    rewrite P2. exact P1. }
  assert (HC : cfg (tailer w2) = c) by (rewrite C2, C1; reflexivity).
  rewrite HC.
  destruct fuel as [|fuel].
  - unfold runs; cbn [for_].
    split; [trace_goal; reflexivity|].
    split; [reflexivity|]. trace_goal. reflexivity.
  - cbn [for_]. apply runs_bind. apply runs_recv. rewrite HP.
    destruct (signal_pending w).
    + intros sig w5 te C5 L5 T5 Q5.
      eapply runs_step; [reflexivity|].
      apply runs_yield; intros w6 t6 (Q6 & C6 & L6 & T6 & I6) P6.
      eapply runs_step; [reflexivity|].
      rewrite L6, L5, L4, L3.
      eapply runs_step; [reflexivity|].
      apply runs_yield; intros w7 t7 (Q7 & C7 & L7 & T7 & I7) P7.
      eapply runs_step; [reflexivity|].
      unfold runs; cbn [ret].
      split; [trace_goal; reflexivity|].
      split; [reflexivity|].
      split; [trace_goal; reflexivity|].
      exact T7.
    + intros w5 t5 T5 Q5.
      split; [trace_goal; reflexivity|].
      split; [reflexivity|].
      split; [trace_goal; reflexivity|].
      intros Hn. rewrite T5, T4. unfold started.
      rewrite T3, T2, T1, Hn. reflexivity.
Qed.

Lemma In_main_events c t : In c (main_events t) -> In (Main, c) t.
Proof.
  unfold main_events. intros H.
  apply in_map_iff in H. destruct H as ([g c'] & E & H).
  apply filter_In in H. destruct H as [H Hm].
  cbn in E. subst c'. destruct g; [exact H|discriminate Hm].
Qed.

(** C1: [Run] calls, in this order: the spinner, [signal.Notify] for the
    interrupt and termination signals, [Authorize] with the device and
    feature names (on failure [Fatalf] ends the process), [NewClient] with the
    session's fields, the [go] statement, the ready message; then it waits on
    the channel.  When a signal comes it logs, calls [Stop] once, logs and
    returns nil; when none comes it stays blocked and [Stop] is not called.
    What the transport delivers in between changes none of this. *)
Theorem Run_sequence X fuel c sc :
  exists o w' t,
    Run X (S fuel) Main (initial c sc) = (o, w', t)
    /\ (forall session,
          Authorize X (DeviceName c) (WebSocketFeature c) = inl session ->
          has_signal sc = true ->
          o = Returned None
          /\ main_events t =
             [ansi_StartSpinner "Getting ready..." cfg_Log_Out;
              signal_Notify [Interrupt; SIGTERM];
              stripeauth_Authorize (DeviceName c) (WebSocketFeature c);
              websocket_NewClient (client_of c session);
              go_webSocketClient_Run;
              ansi_StopSpinner "Getting ready..."
                "Ready! You're now waiting to receive API request logs (^C to quit)"
                cfg_Log_Out;
              recv_interruptCh;
              Log_Debug std_Log [("prefix", "logs.Tailer.Run")]
                "Ctrl+C received, cleaning up...";
              webSocketClient_Stop;
              Log_Debug std_Log [("prefix", "logs.Tailer.Run")] "Bye!"]
          /\ count_calls is_Stop t = 1%nat
          /\ transport w' = Stopped)
    /\ (forall session,
          Authorize X (DeviceName c) (WebSocketFeature c) = inl session ->
          has_signal sc = false ->
          o = Blocked
          /\ main_events t =
             [ansi_StartSpinner "Getting ready..." cfg_Log_Out;
              signal_Notify [Interrupt; SIGTERM];
              stripeauth_Authorize (DeviceName c) (WebSocketFeature c);
              websocket_NewClient (client_of c session);
              go_webSocketClient_Run;
              ansi_StopSpinner "Getting ready..."
                "Ready! You're now waiting to receive API request logs (^C to quit)"
                cfg_Log_Out]
          /\ count_calls is_Stop t = 0%nat
          /\ transport w' = Running)
    /\ (forall err,
          Authorize X (DeviceName c) (WebSocketFeature c) = inr err ->
          o = Exited 1
          /\ main_events t =
             [ansi_StartSpinner "Getting ready..." cfg_Log_Out;
              signal_Notify [Interrupt; SIGTERM];
              stripeauth_Authorize (DeviceName c) (WebSocketFeature c);
              Log_Fatalf "Error while authenticating with Stripe: %v" err]).
Proof.
  destruct (Run_spec X (S fuel) (initial c sc)) as (o & w' & t & E & Hq & H).
  cbn [initial tailer New cfg] in H.
  change (signal_pending (initial c sc)) with (has_signal sc) in H.
  exists o, w', t. split; [exact E|].
  split; [|split].
  - intros session Ha Hs. rewrite Ha, Hs in H.
    destruct H as (Ho & Hm & Ht).
    split; [exact Ho|]. split; [exact Hm|]. split; [|exact Ht].
    rewrite (count_Stop_main t Hq), Hm. reflexivity.
  - intros session Ha Hs. rewrite Ha, Hs in H.
    destruct H as (Ho & Hm & Ht).
    split; [exact Ho|]. split; [exact Hm|]. split; [|apply Ht; reflexivity].
    rewrite (count_Stop_main t Hq), Hm. reflexivity.
  - intros err Ha. rewrite Ha in H.
    destruct H as (Ho & Hm & _). split; assumption.
Qed.

Lemma Run_sequence_witness :
  exists w' t,
    Run sample_Externals 1 Main
      (initial cfg_human [[]; [Frame msg_404]; []; [];
                          [Frame msg_truncated; SigArrives SIGTERM; Frame msg_404]])
    = (Returned None, w', t)
    /\ count_calls is_Stop t = 1%nat
    /\ transport w' = Stopped.
Proof.
  destruct (Run_sequence sample_Externals 0 cfg_human
              [[]; [Frame msg_404]; []; [];
               [Frame msg_truncated; SigArrives SIGTERM; Frame msg_404]])
    as (o & w' & t & E & H & _).
  destruct (H (stripeauth.mkSession "wss://example.test/subscribe" "ws_1"
                 "request_logs" 5) eq_refl eq_refl) as (Ho & _ & Hc & Ht).
  exists w', t. rewrite E, Ho. repeat split; assumption.
Defined.

(** C2: when [Authorize] fails, [Run] logs the error with [Fatalf] and the
    process exits with status 1.  [Authorize] was called once; no client was
    built, no goroutine started. *)
Theorem Run_authorization_failure X fuel c sc err :
  Authorize X (DeviceName c) (WebSocketFeature c) = inr err ->
  exists w',
    Run X fuel Main (initial c sc)
    = (Exited 1, w',
       [(Main, ansi_StartSpinner "Getting ready..." cfg_Log_Out);
        (Main, signal_Notify [Interrupt; SIGTERM]);
        (Main, stripeauth_Authorize (DeviceName c) (WebSocketFeature c));
        (Main, Log_Fatalf "Error while authenticating with Stripe: %v" err)])
    /\ webSocketClient (tailer w') = None
    /\ transport w' = NotStarted.
Proof.
  intros Ha.
  destruct (Run_spec X fuel (initial c sc)) as (o & w' & t & E & Hq & H).
  cbn [initial tailer New cfg] in H. rewrite Ha in H.
  destruct H as (Ho & _ & Hc & Ht & Hx).
  exists w'. rewrite E, Ho, Hx by discriminate.
  split; [reflexivity|]. split; assumption.
Qed.

Lemma Run_authorization_failure_witness :
  exists w',
    Run sample_Externals 1 Main
      (initial cfg_unknown_device [[SigArrives Interrupt]; [Frame msg_404]])
    = (Exited 1, w',
       [(Main, ansi_StartSpinner "Getting ready..." cfg_Log_Out);
        (Main, signal_Notify [Interrupt; SIGTERM]);
        (Main, stripeauth_Authorize "unknown-device" "request_logs");
        (Main, Log_Fatalf "Error while authenticating with Stripe: %v" "unauthorized")])
    /\ webSocketClient (tailer w') = None
    /\ transport w' = NotStarted.
Proof.
  exact (Run_authorization_failure sample_Externals 1 cfg_unknown_device
           [[SigArrives Interrupt]; [Frame msg_404]] "unauthorized" eq_refl).
Defined.

(** C8, as the code has it: [Run] writes the ready message itself, as the
    next call of the main goroutine after the [go] statement, whatever the
    transport delivers and whether it delivers anything.  With nothing
    arriving at all the trace is the six calls up to the ready message. *)
Theorem ready_message_follows_start X fuel c session :
  Authorize X (DeviceName c) (WebSocketFeature c) = inl session ->
  (forall sc,
      firstn 6 (main_events (snd (Run X fuel Main (initial c sc))))
      = [ansi_StartSpinner "Getting ready..." cfg_Log_Out;
         signal_Notify [Interrupt; SIGTERM];
         stripeauth_Authorize (DeviceName c) (WebSocketFeature c);
         websocket_NewClient (client_of c session);
         go_webSocketClient_Run;
         ansi_StopSpinner "Getting ready..."
           "Ready! You're now waiting to receive API request logs (^C to quit)"
           cfg_Log_Out])
  /\ snd (Run X (S fuel) Main (initial c []))
     = [(Main, ansi_StartSpinner "Getting ready..." cfg_Log_Out);
        (Main, signal_Notify [Interrupt; SIGTERM]);
        (Main, stripeauth_Authorize (DeviceName c) (WebSocketFeature c));
        (Main, websocket_NewClient (client_of c session));
        (Main, go_webSocketClient_Run);
        (Main, ansi_StopSpinner "Getting ready..."
                 "Ready! You're now waiting to receive API request logs (^C to quit)"
                 cfg_Log_Out)].
Proof.
  intros Ha. split.
  - intros sc.
    destruct (Run_spec X fuel (initial c sc)) as (o & w' & t & E & Hq & H).
    cbn [initial tailer New cfg] in H. rewrite Ha in H.
    rewrite E. cbn [snd].
    destruct fuel as [|fuel].
    + destruct H as (_ & ->). reflexivity.
    + destruct (signal_pending (initial c sc)).
      * destruct H as (_ & -> & _). reflexivity.
      * destruct H as (_ & -> & _). reflexivity.
  - unfold Run, bind, initial, New, StartSpinner, call, yield, get_tailer,
      Authorize_call. cbn.
    rewrite Ha. reflexivity.
Qed.

Lemma ready_message_follows_start_witness :
  snd (Run sample_Externals 1 Main (initial cfg_human []))
  = [(Main, ansi_StartSpinner "Getting ready..." cfg_Log_Out);
     (Main, signal_Notify [Interrupt; SIGTERM]);
     (Main, stripeauth_Authorize "laptop" "request_logs");
     (Main, websocket_NewClient
              (client_of cfg_human
                 (stripeauth.mkSession "wss://example.test/subscribe" "ws_1"
                    "request_logs" 5)));
     (Main, go_webSocketClient_Run);
     (Main, ansi_StopSpinner "Getting ready..."
              "Ready! You're now waiting to receive API request logs (^C to quit)"
              cfg_Log_Out)].
Proof.
  exact (proj2 (ready_message_follows_start sample_Externals 0 cfg_human
                  (stripeauth.mkSession "wss://example.test/subscribe" "ws_1"
                     "request_logs" 5) eq_refl)).
Defined.

(** C8 as stated fails: the first event is delivered while [Run] waits for
    a signal, after the ready message was written. *)
Lemma ready_message_before_first_event :
  let t := snd (Run sample_Externals 1 Main
                  (initial cfg_human
                     [[]; []; []; []; [Frame msg_404; SigArrives Interrupt]])) in
  ready_not_before_first_event t = false
  /\ count_calls is_EventHandler_call t = 1%nat.
Proof. split; reflexivity. Qed.

(** C9: [Run] never returns an error: whenever it returns, it returns nil.
    A failed authorization does not return: [Fatalf] logs it and the
    process exits. *)
Theorem Run_never_returns_error X fuel w :
  (forall r w' t, Run X fuel Main w = (Returned r, w', t) -> r = None)
  /\ (forall err,
        Authorize X (DeviceName (cfg (tailer w))) (WebSocketFeature (cfg (tailer w)))
        = inr err ->
        exists w' t,
          Run X fuel Main w = (Exited 1, w', t)
          /\ In (Main, Log_Fatalf "Error while authenticating with Stripe: %v" err) t).
Proof.
  destruct (Run_spec X fuel w) as (o & w1 & t1 & E & Hq & H).
  cbv zeta in H.
  split.
  - intros r w' t Hr. rewrite E in Hr.
    injection Hr as Ho _ _.
    destruct (Authorize X (DeviceName (cfg (tailer w)))
                (WebSocketFeature (cfg (tailer w)))) as [session|err].
    + destruct fuel as [|fuel].
      * destruct H as (H & _). congruence.
      * destruct (signal_pending w); destruct H as (H & _); congruence.
    + destruct H as (H & _). congruence.
  - intros err Ha. rewrite Ha in H. destruct H as (Ho & Hm & _).
    exists w1, t1. rewrite E, Ho. split; [reflexivity|].
    apply In_main_events. rewrite Hm. cbn. auto.
Qed.

Lemma Run_never_returns_error_witness :
  exists r w' t,
    Run sample_Externals 1 Main (initial cfg_human [[SigArrives Interrupt]])
    = (Returned r, w', t)
    /\ r = None.
Proof.
  eexists; eexists; eexists.
  split; [reflexivity|].
  eapply (proj1 (Run_never_returns_error sample_Externals 1
                   (initial cfg_human [[SigArrives Interrupt]]))).
  reflexivity.
Defined.

(** ** Further properties of the dispatcher *)

Lemma stdout_lines_app t1 t2 :
  stdout_lines (t1 ++ t2) = stdout_lines t1 ++ stdout_lines t2.
Proof. unfold stdout_lines. apply flat_map_app. Qed.

Lemma processRequestLogEvent_any X msg g w :
  exists t,
    processRequestLogEvent X msg g w = (Returned tt, w, t)
    /\ stdout_lines t = lines_of X (cfg (tailer w)) [msg].
Proof.
  destruct msg as [[ev|]]; unfold lines_of, rendered; cbn [flat_map].
  - cbn [websocket.msg_RequestLogEvent].
    destruct (String.eqb (OutputFormat (cfg (tailer w))) outputFormatJSON) eqn:Hf.
    + rewrite (processRequestLogEvent_json X ev g w Hf).
      eexists; split; reflexivity.
    + rewrite (processRequestLogEvent_human X ev g w Hf).
      eexists; split; [reflexivity|].
      unfold human_trace.
      destruct (Unmarshal X (websocket.EventPayload ev) zero_EventPayload)
        as [p [err|]]; reflexivity.
  - rewrite processRequestLogEvent_other. eexists; split; reflexivity.
Qed.

(** The callback applied to a sequence of messages prints one line for each
    request-log event, in the order of arrival, in either output mode, and
    nothing for the other messages; it returns normally and leaves the
    tailer as it was. *)
Theorem dispatch_all_lines X msgs g w :
  exists t,
    dispatch_all X msgs g w = (Returned tt, w, t)
    /\ stdout_lines t = lines_of X (cfg (tailer w)) msgs
    /\ length (stdout_lines t) = length (filter is_request_log msgs).
Proof.
  induction msgs as [|m msgs IH].
  - exists []. repeat split.
  - destruct IH as (t2 & E2 & L2 & N2).
    destruct (processRequestLogEvent_any X m g w) as (t1 & E1 & L1).
    exists (t1 ++ t2).
    split; [cbn [dispatch_all]; unfold bind; rewrite E1, E2; reflexivity|].
    split.
    + rewrite stdout_lines_app, L1, L2. unfold lines_of. cbn [flat_map].
      rewrite app_nil_r. reflexivity.
    + rewrite stdout_lines_app, length_app, N2, L1.
      unfold lines_of, is_request_log. cbn [flat_map filter].
      destruct (websocket.msg_RequestLogEvent m); reflexivity.
Qed.

(** What is printed for a request-log event depends on its payload and on
    the output format alone: the [Type] tag and the [RequestLogID] are not
    inspected. *)
Theorem output_depends_on_payload_only X ev1 ev2 g w :
  websocket.EventPayload ev1 = websocket.EventPayload ev2 ->
  stdout_lines
    (snd (processRequestLogEvent X (websocket.mkIncomingMessage (Some ev1)) g w))
  = stdout_lines
      (snd (processRequestLogEvent X (websocket.mkIncomingMessage (Some ev2)) g w)).
Proof.
  intros Hp.
  destruct (processRequestLogEvent_any X (websocket.mkIncomingMessage (Some ev1)) g w)
    as (t1 & E1 & L1).
  destruct (processRequestLogEvent_any X (websocket.mkIncomingMessage (Some ev2)) g w)
    as (t2 & E2 & L2).
  rewrite E1, E2. cbn [snd]. rewrite L1, L2.
  unfold lines_of, rendered. cbn. rewrite Hp. reflexivity.
Qed.

Lemma output_depends_on_payload_only_witness :
  stdout_lines
    (snd (processRequestLogEvent sample_Externals
            (websocket.mkIncomingMessage (Some event_404)) Transport
            (initial cfg_human [])))
  = stdout_lines
      (snd (processRequestLogEvent sample_Externals
              (websocket.mkIncomingMessage (Some event_other_id)) Transport
              (initial cfg_human []))).
Proof.
  exact (output_depends_on_payload_only sample_Externals event_404 event_other_id
           Transport (initial cfg_human []) eq_refl).
Defined.

Lemma processRequestLogEvent_calls X msg g w :
  exists t,
    processRequestLogEvent X msg g w = (Returned tt, w, t)
    /\ Forall (fun e => fst e = g /\ is_coordinator_call (snd e) = false) t.
Proof.
  destruct msg as [[ev|]].
  - destruct (String.eqb (OutputFormat (cfg (tailer w))) outputFormatJSON) eqn:Hf.
    + rewrite (processRequestLogEvent_json X ev g w Hf).
      eexists; split; [reflexivity|repeat constructor].
    + rewrite (processRequestLogEvent_human X ev g w Hf).
      eexists; split; [reflexivity|].
      unfold human_trace.
      destruct (snd (Unmarshal X (websocket.EventPayload ev) zero_EventPayload));
        repeat constructor.
  - rewrite processRequestLogEvent_other.
    eexists; split; [reflexivity|repeat constructor].
Qed.

(** For every message, output format and answer of the decoder, the
    dispatcher returns normally and leaves the tailer as it was, and it never
    makes one of the coordinator's calls: no [Fatalf], no [Stop], [NewClient]
    or [go] on the websocket client, no [Authorize], no [signal.Notify] or
    receive on the interrupt channel, no spinner call. *)
Theorem dispatcher_never_acts_on_the_session X msg g w :
  exists t,
    processRequestLogEvent X msg g w = (Returned tt, w, t)
    /\ Forall (fun e => fst e = g /\ is_coordinator_call (snd e) = false) t.
Proof. apply processRequestLogEvent_calls. Qed.

(** A warning about the payload is logged exactly when the decoder was
    called and returned an error: in human mode once for a payload that
    fails to decode and not at all for one that decodes; in json mode never,
    however malformed the payload is. *)
Theorem warning_iff_decode_error X ev g w :
  count_calls is_Warn
    (snd (processRequestLogEvent X (websocket.mkIncomingMessage (Some ev)) g w))
  = if String.eqb (OutputFormat (cfg (tailer w))) "json" then 0%nat
    else match snd (Unmarshal X (websocket.EventPayload ev) zero_EventPayload) with
         | Some _ => 1%nat
         | None => 0%nat
         end.
Proof.
  destruct (String.eqb (OutputFormat (cfg (tailer w))) "json") eqn:Hf.
  - rewrite (processRequestLogEvent_json X ev g w Hf). reflexivity.
  - rewrite (processRequestLogEvent_human X ev g w Hf).
    unfold human_trace.
    destruct (snd (Unmarshal X (websocket.EventPayload ev) zero_EventPayload));
      reflexivity.
Qed.

(** ** colorizeStatus, read backwards *)

(** The colour tells the class of the status: red exactly from 500 up,
    yellow exactly on 400 to 499, green exactly below 400; the number shown
    is the status itself. *)
Theorem colorizeStatus_class status :
  (aurora.fg (colorizeStatus status) = aurora.Red <-> 500 <= status)
  /\ (aurora.fg (colorizeStatus status) = aurora.Yellow <-> 400 <= status <= 499)
  /\ (aurora.fg (colorizeStatus status) = aurora.Green <-> status < 400)
  /\ aurora.arg (colorizeStatus status) = status.
Proof.
  rewrite colorizeStatus_spec. cbn [aurora.fg aurora.arg].
  destruct (Z.leb_spec 500 status); [|destruct (Z.leb_spec 400 status)];
    repeat split; intros; try lia; try discriminate; reflexivity.
Qed.

(** ** Further properties of Run *)

Lemma wrap64_in_range z :
  - 9223372036854775808 <= z < 9223372036854775808 -> wrap64 z = z.
Proof.
  intros H. unfold wrap64.
  change (2 ^ 63) with 9223372036854775808.
  change (2 ^ 64) with 18446744073709551616.
  rewrite Z.mod_small; lia.
Qed.

Lemma wrap64_above z :
  9223372036854775808 <= z < 27670116110564327424 ->
  wrap64 z = z - 18446744073709551616.
Proof.
  intros H. unfold wrap64.
  change (2 ^ 63) with 9223372036854775808.
  change (2 ^ 64) with 18446744073709551616.
  rewrite <- (Z.mod_unique (z + 9223372036854775808) 18446744073709551616 1
                (z + 9223372036854775808 - 18446744073709551616)); lia.
Qed.

Lemma main_events_In c t : In (Main, c) t -> In c (main_events t).
Proof.
  intros H. unfold main_events.
  apply in_map_iff. exists (Main, c). split; [reflexivity|].
  apply filter_In. split; [exact H|reflexivity].
Qed.

Lemma Run_NewClient X fuel c sc session :
  Authorize X (DeviceName c) (WebSocketFeature c) = inl session ->
  forall cl,
    In (Main, websocket_NewClient cl) (snd (Run X fuel Main (initial c sc)))
    <-> cl = client_of c session.
Proof.
  intros Ha cl.
  destruct (Run_spec X fuel (initial c sc)) as (o & w' & t & E & Hq & H).
  cbn [initial tailer New cfg] in H. rewrite Ha in H.
  rewrite E. cbn [snd].
  assert (Hm : main_events t = startup_calls c session
               \/ main_events t = startup_calls c session ++ shutdown_calls).
  { destruct fuel as [|fuel]; [left; apply H|].
    destruct (signal_pending (initial c sc)); [right|left]; apply H. }
  split.
  - intros Hin. apply main_events_In in Hin.
    destruct Hm as [Hm|Hm]; rewrite Hm in Hin; cbn in Hin;
      repeat (destruct Hin as [Hin|Hin]; [try discriminate Hin|]);
      try contradiction; injection Hin as Hin; symmetry; exact Hin.
  - intros ->. apply In_main_events.
    destruct Hm as [Hm|Hm]; rewrite Hm; cbn; auto.
Qed.

(** *** The client is built once *)

Lemma count_calls_app p t1 t2 :
  count_calls p (t1 ++ t2) = (count_calls p t1 + count_calls p t2)%nat.
Proof. unfold count_calls. rewrite filter_app, length_app. reflexivity. Qed.

Lemma count_NewClient_dispatcher t g :
  Forall (fun e => fst e = g /\ is_coordinator_call (snd e) = false) t ->
  count_calls is_NewClient t = 0%nat.
Proof.
  unfold count_calls.
  induction 1 as [|[g0 c] t [_ Hc] _ IH]; [reflexivity|].
  cbn in *. destruct c; try discriminate Hc; exact IH.
Qed.

Lemma deliver_count X st g w :
  exists w' t,
    deliver X st g w = (Returned tt, w', t)
    /\ count_calls is_NewClient t = 0%nat.
Proof.
  destruct st as [sig|m]; cbn.
  - eexists; eexists; split; reflexivity.
  - destruct (transport w);
      try (eexists; eexists; split; reflexivity).
    destruct (processRequestLogEvent_calls X m Transport w) as (t & E & F).
    unfold bind, call. rewrite E.
    eexists; eexists; split; [reflexivity|].
    exact (count_NewClient_dispatcher t Transport F).
Qed.

Lemma deliver_batch_count X b :
  forall g w,
  exists w' t,
    deliver_batch X b g w = (Returned tt, w', t)
    /\ count_calls is_NewClient t = 0%nat.
Proof.
  induction b as [|st b IH]; intros g w.
  - exists w, []. split; reflexivity.
  - destruct (deliver_count X st g w) as (w1 & t1 & E1 & C1).
    destruct (IH g w1) as (w2 & t2 & E2 & C2).
    exists w2, (t1 ++ t2). split.
    + cbn [deliver_batch]. unfold bind. rewrite E1, E2. reflexivity.
    + rewrite count_calls_app, C1, C2. reflexivity.
Qed.

Lemma yield_count X g w :
  count_calls is_NewClient (snd (yield X g w)) = 0%nat.
Proof.
  unfold yield. destruct (sched w) as [|b bs]; [reflexivity|].
  destruct (deliver_batch_count X b g (set_sched bs w)) as (w' & t & E & C).
  rewrite E. exact C.
Qed.

Lemma recv_loop_count X batches :
  forall g w, count_calls is_NewClient (snd (recv_loop X batches g w)) = 0%nat.
Proof.
  induction batches as [|b bs IH]; intros g w; cbn [recv_loop].
  - destruct (interruptCh (tailer w)); reflexivity.
  - destruct (interruptCh (tailer w)); [|reflexivity].
    destruct (deliver_batch_count X b g (set_sched bs w)) as (w1 & t1 & E1 & C1).
    rewrite E1. specialize (IH g w1).
    destruct (recv_loop X bs g w1) as [[o w2] t2]. cbn [snd] in *.
    rewrite count_calls_app, C1, IH. reflexivity.
Qed.

Lemma recv_from_interruptCh_count X g w :
  count_calls is_NewClient (snd (recv_from_interruptCh X g w)) = 0%nat.
Proof.
  unfold recv_from_interruptCh.
  pose proof (recv_loop_count X (sched w) g w) as H.
  destruct (recv_loop X (sched w) g w) as [[o w1] t1]. cbn [snd] in H.
  destruct o; cbn [snd]; try exact H.
  rewrite count_calls_app, H. reflexivity.
Qed.

Lemma runs_yield_count {B} X (k : unit -> M B) w Q :
  (forall w1 t1,
      cfg (tailer w1) = cfg (tailer w) ->
      count_calls is_NewClient t1 = 0%nat ->
      runs (k tt) Main w1 (fun o2 w2 t2 => Q o2 w2 (t1 ++ t2))) ->
  runs (bind (yield X) k) Main w Q.
Proof.
  intros H.
  destruct (yield_spec X Main w) as (w1 & t1 & E & (_ & C & _) & _).
  pose proof (yield_count X Main w) as Hc. rewrite E in Hc.
  apply (runs_step _ _ _ _ _ _ _ _ E). apply H; assumption.
Qed.

Lemma runs_recv_count {B} X (k : Signal -> M B) w Q :
  (forall sig w1 t1,
      count_calls is_NewClient t1 = 0%nat ->
      runs (k sig) Main w1 (fun o2 w2 t2 => Q o2 w2 (t1 ++ t2))) ->
  (forall w1 t1,
      count_calls is_NewClient t1 = 0%nat ->
      Q Blocked w1 t1 /\ Q OutOfFuel w1 t1 /\ forall c, Q (Exited c) w1 t1) ->
  runs (bind (recv_from_interruptCh X) k) Main w Q.
Proof.
  intros Hr Hn.
  pose proof (recv_from_interruptCh_count X Main w) as Hc.
  apply runs_bind. unfold runs at 1.
  destruct (recv_from_interruptCh X Main w) as [[o w1] t1]. cbn [snd] in Hc.
  destruct o.
  - apply Hr; exact Hc.
  - apply Hn; exact Hc.
  - apply Hn; exact Hc.
  - apply Hn; exact Hc.
Qed.

Ltac count_goal :=
  cbv beta; rewrite ?count_calls_app;
  repeat match goal with
         | H : count_calls is_NewClient ?t = 0%nat |- _ => rewrite ?H; clear H
         end;
  reflexivity.

Lemma Run_NewClient_count X fuel w :
  count_calls is_NewClient (snd (Run X fuel Main w))
  = match Authorize X (DeviceName (cfg (tailer w)))
            (WebSocketFeature (cfg (tailer w))) with
    | inl _ => 1%nat
    | inr _ => 0%nat
    end.
Proof.
  set (n := match Authorize X (DeviceName (cfg (tailer w)))
                    (WebSocketFeature (cfg (tailer w))) with
            | inl _ => 1%nat
            | inr _ => 0%nat
            end).
  assert (H : runs (Run X fuel) Main w
                (fun _ _ t => count_calls is_NewClient t = n)).
  2:{ apply runs_elim in H. destruct H as (o & w' & t & E & H).
      rewrite E. exact H. }
  subst n. unfold Run.
  eapply runs_step; [reflexivity|].
  eapply runs_step; [reflexivity|].
  apply runs_yield_count; intros w1 t1 C1 N1.
  eapply runs_step; [reflexivity|].
  eapply runs_step; [reflexivity|].
  rewrite C1.
  destruct (Authorize X (DeviceName (cfg (tailer w)))
              (WebSocketFeature (cfg (tailer w)))) as [session|err].
  2:{ apply runs_bind. unfold runs at 1, Fatalf. count_goal. }
  eapply runs_step; [reflexivity|].
  apply runs_yield_count; intros w2 t2 C2 N2.
  eapply runs_step; [reflexivity|].
  eapply runs_step; [reflexivity|].
  eapply runs_step; [reflexivity|].
  apply runs_yield_count; intros w3 t3 C3 N3.
  eapply runs_step; [reflexivity|].
  apply runs_yield_count; intros w4 t4 C4 N4.
  eapply runs_step; [reflexivity|].
  destruct fuel as [|fuel].
  - unfold runs; cbn [for_]. count_goal.
  - cbn [for_]. apply runs_bind. apply runs_recv_count.
    + intros sig w5 t5 N5.
      eapply runs_step; [reflexivity|].
      apply runs_yield_count; intros w6 t6 C6 N6.
      eapply runs_step; [reflexivity|].
      destruct (webSocketClient (tailer w6)).
      * eapply runs_step; [reflexivity|].
        apply runs_yield_count; intros w7 t7 C7 N7.
        eapply runs_step; [reflexivity|].
        unfold runs; cbn [ret]. count_goal.
      * eapply runs_step; [reflexivity|].
        apply runs_yield_count; intros w7 t7 C7 N7.
        eapply runs_step; [reflexivity|].
        unfold runs; cbn [ret]. count_goal.
    + intros w5 t5 N5.
      assert (H5 : count_calls is_NewClient
                     ([(Main, ansi_StartSpinner "Getting ready..." cfg_Log_Out)] ++
                      [(Main, signal_Notify [Interrupt; SIGTERM])] ++
                      t1 ++ [] ++
                      [(Main, stripeauth_Authorize (DeviceName (cfg (tailer w)))
                                (WebSocketFeature (cfg (tailer w))))] ++
                      [] ++ t2 ++ [] ++
                      [(Main, websocket_NewClient (client_of (cfg (tailer w2)) session))] ++
                      [] ++ t3 ++ [(Main, go_webSocketClient_Run)] ++ t4 ++
                      [(Main, ansi_StopSpinner "Getting ready..." ready_message
                                cfg_Log_Out)] ++ t5) = 1%nat)
        by count_goal.
      split; [exact H5|]. split; [exact H5|]. intros _; exact H5.
Qed.

(** With a reconnect delay of at most 9223372036 seconds in absolute value,
    the client is built once, with a reconnect interval of exactly that many
    seconds in nanoseconds, the session's address, id and feature, and the
    configuration's [NoWSS]: the whole trace holds one [NewClient] call. *)
Theorem Run_reconnect_interval X fuel c sc session :
  Authorize X (DeviceName c) (WebSocketFeature c) = inl session ->
  - 9223372036 <= stripeauth.ReconnectDelay session <= 9223372036 ->
  count_calls is_NewClient (snd (Run X fuel Main (initial c sc))) = 1%nat
  /\ (exists cl,
        In (Main, websocket_NewClient cl) (snd (Run X fuel Main (initial c sc))))
  /\ forall cl,
       In (Main, websocket_NewClient cl) (snd (Run X fuel Main (initial c sc))) ->
       websocket.ReconnectInterval (websocket.Cfg cl)
       = stripeauth.ReconnectDelay session * 1000000000
       /\ websocket.NoWSS (websocket.Cfg cl) = NoWSS c
       /\ websocket.URL cl = stripeauth.WebSocketURL session
       /\ websocket.WebSocketID cl = stripeauth.WebSocketID session
       /\ websocket.WebSocketAuthorizedFeature cl
          = stripeauth.WebSocketAuthorizedFeature session.
Proof.
  intros Ha Hd. split; [|split].
  - rewrite Run_NewClient_count. cbn [initial tailer New cfg]. rewrite Ha.
    reflexivity.
  - exists (client_of c session). apply (Run_NewClient X fuel c sc session Ha).
    reflexivity.
  - intros cl Hin. apply (Run_NewClient X fuel c sc session Ha) in Hin. subst cl.
    cbn. unfold time_Second.
    rewrite (wrap64_in_range (stripeauth.ReconnectDelay session)) by lia.
    rewrite wrap64_in_range by lia.
    repeat split.
Qed.

Lemma Run_reconnect_interval_witness :
  count_calls is_NewClient
    (snd (Run sample_Externals 1 Main (initial cfg_human [[SigArrives Interrupt]])))
  = 1%nat
  /\ exists cl,
       In (Main, websocket_NewClient cl)
         (snd (Run sample_Externals 1 Main
                 (initial cfg_human [[SigArrives Interrupt]])))
       /\ websocket.ReconnectInterval (websocket.Cfg cl) = 5000000000.
Proof.
  assert (Hd : - 9223372036 <= stripeauth.ReconnectDelay session_5s <= 9223372036)
    by (cbn; lia).
  destruct (Run_reconnect_interval sample_Externals 1 cfg_human
              [[SigArrives Interrupt]] session_5s eq_refl Hd)
    as (Hn & (cl & Hin) & Hall).
  split; [exact Hn|].
  exists cl. split; [exact Hin|exact (proj1 (Hall cl Hin))].
Defined.

(** A reconnect delay from 9223372037 to 18446744073 seconds overflows the
    int64 nanosecond count: the client is given the product less 2^64, a
    negative reconnect interval. *)
Theorem Run_reconnect_interval_overflow X fuel c sc session :
  Authorize X (DeviceName c) (WebSocketFeature c) = inl session ->
  9223372037 <= stripeauth.ReconnectDelay session <= 18446744073 ->
  forall cl,
    In (Main, websocket_NewClient cl) (snd (Run X fuel Main (initial c sc))) ->
    websocket.ReconnectInterval (websocket.Cfg cl)
    = stripeauth.ReconnectDelay session * 1000000000 - 18446744073709551616
    /\ websocket.ReconnectInterval (websocket.Cfg cl) < 0.
Proof.
  intros Ha Hd cl Hin.
  apply (Run_NewClient X fuel c sc session Ha) in Hin. subst cl.
  cbn. unfold time_Second.
  rewrite (wrap64_in_range (stripeauth.ReconnectDelay session)) by lia.
  rewrite wrap64_above by lia.
  split; [reflexivity|lia].
Qed.

Lemma Run_reconnect_interval_overflow_witness :
  In (Main, websocket_NewClient (client_of cfg_human session_292_years))
    (snd (Run long_delay_Externals 1 Main
            (initial cfg_human [[SigArrives Interrupt]])))
  /\ websocket.ReconnectInterval
       (websocket.Cfg (client_of cfg_human session_292_years))
     = - 9223372036709551616.
Proof.
  assert (Hd : 9223372037 <= stripeauth.ReconnectDelay session_292_years
               <= 18446744073) by (cbn; lia).
  assert (Hin : In (Main, websocket_NewClient (client_of cfg_human session_292_years))
                  (snd (Run long_delay_Externals 1 Main
                          (initial cfg_human [[SigArrives Interrupt]]))))
    by (do 3 right; left; reflexivity).
  split; [exact Hin|].
  exact (proj1 (Run_reconnect_interval_overflow long_delay_Externals 1 cfg_human
                  [[SigArrives Interrupt]] session_292_years eq_refl Hd _ Hin)).
Defined.

(** *** The loop goes round at most once *)

Lemma bind_ext {A B} (m : M A) (k1 k2 : A -> M B) g w :
  (forall a w', k1 a g w' = k2 a g w') -> bind m k1 g w = bind m k2 g w.
Proof.
  intros H. unfold bind. destruct (m g w) as [[o w1] t1].
  destruct o; try reflexivity. rewrite H. reflexivity.
Qed.

Lemma returns_only_bind {A B} (P : B -> Prop) (m : M A) (k : A -> M B) :
  (forall a, returns_only P (k a)) -> returns_only P (bind m k).
Proof.
  intros H g w b w' t. unfold bind.
  destruct (m g w) as [[o w1] t1]. destruct o; try discriminate.
  destruct (k a g w1) as [[o2 w2] t2] eqn:E.
  intros Heq. injection Heq as -> _ _.
  exact (H a g w1 b w2 t2 E).
Qed.

Lemma for_once {A} (body : M (LoopCtl A)) fuel g w :
  returns_only (fun c => c <> Continue) body ->
  for_ (S fuel) body g w = for_ 1 body g w.
Proof.
  intros H. cbn [for_]. unfold bind.
  destruct (body g w) as [[o w1] t1] eqn:E.
  destruct o as [[|a]| | |]; try reflexivity.
  exfalso. exact (H g w Continue w1 t1 E eq_refl).
Qed.

(** Whatever the fuel, [Run] does what it does with one unit: the body of
    its [for] loop returns from the function whenever it completes, so the
    loop never goes round a second time. *)
Theorem Run_loop_once X fuel w :
  Run X (S fuel) Main w = Run X 1 Main w.
Proof.
  unfold Run.
  do 14 (apply bind_ext; intros).
  apply for_once.
  repeat (apply returns_only_bind; intros).
  intros g0 w0 r w1 t1 Hr. cbv in Hr. injection Hr as <- _ _. discriminate.
Qed.

(** *** What Run keeps *)

Lemma send_nonblocking_bound sig ch :
  (length ch <= interruptCh_cap)%nat ->
  (length (send_nonblocking sig ch) <= interruptCh_cap)%nat.
Proof.
  unfold send_nonblocking, interruptCh_cap.
  destruct ch as [|a [|b r]]; cbn; lia.
Qed.

Lemma ch_after_bound b :
  forall ch,
    (length ch <= interruptCh_cap)%nat ->
    (length (ch_after b ch) <= interruptCh_cap)%nat.
Proof.
  induction b as [|[sig|m] b IH]; intros ch H; cbn; [exact H| |apply IH; exact H].
  apply IH. apply send_nonblocking_bound. exact H.
Qed.

Lemma yield_keeps X g w0 w :
  Run_keeps w0 w ->
  exists w' t,
    yield X g w = (Returned tt, w', t)
    /\ Run_keeps w0 w'
    /\ webSocketClient (tailer w') = webSocketClient (tailer w).
Proof.
  intros [Hc Hb]. unfold yield. destruct (sched w) as [|b bs].
  - exists w, []. repeat split; assumption.
  - destruct (deliver_batch_spec X b g (set_sched bs w))
      as (w' & t & E & (_ & C & L & _) & _ & Ch).
    exists w', t. split; [exact E|].
    split; [|exact L].
    split; [rewrite C; exact Hc|].
    rewrite Ch. apply ch_after_bound. exact Hb.
Qed.

Lemma recv_loop_keeps X batches :
  forall g w0 w,
    Run_keeps w0 w ->
    exists o w' t,
      recv_loop X batches g w = (o, w', t)
      /\ Run_keeps w0 w'
      /\ webSocketClient (tailer w') = webSocketClient (tailer w).
Proof.
  induction batches as [|b bs IH]; intros g w0 w [Hc Hb]; cbn [recv_loop].
  - destruct (interruptCh (tailer w)) as [|sig rest] eqn:Hch.
    + exists Blocked, w, []. split; [reflexivity|].
      split; [split; [exact Hc|rewrite Hch; cbn; unfold interruptCh_cap; lia]|].
      reflexivity.
    + eexists; eexists; eexists. split; [reflexivity|].
      split; [split; [exact Hc|]|reflexivity].
      cbn in *. lia.
  - destruct (interruptCh (tailer w)) as [|sig rest] eqn:Hch.
    + destruct (deliver_batch_spec X b g (set_sched bs w))
        as (w1 & t1 & E1 & (_ & C1 & L1 & _) & _ & Ch1).
      rewrite E1.
      assert (K1 : Run_keeps w0 w1).
      { split; [rewrite C1; exact Hc|].
        rewrite Ch1. apply ch_after_bound. cbn. rewrite Hch. cbn.
        unfold interruptCh_cap. lia. }
      destruct (IH g w0 w1 K1) as (o & w2 & t2 & E2 & K2 & L2).
      rewrite E2. exists o, w2, (t1 ++ t2).
      split; [reflexivity|]. split; [exact K2|].
      rewrite L2. exact L1.
    + eexists; eexists; eexists. split; [reflexivity|].
      split; [split; [exact Hc|]|reflexivity].
      cbn in *. lia.
Qed.

Lemma runs_yield_keeps {B} X (k : unit -> M B) w0 w Q :
  Run_keeps w0 w ->
  (forall w1,
      Run_keeps w0 w1 ->
      webSocketClient (tailer w1) = webSocketClient (tailer w) ->
      runs (k tt) Main w1 (fun o2 w2 _ => Q o2 w2)) ->
  runs (bind (yield X) k) Main w (fun o w' _ => Q o w').
Proof.
  intros K H.
  destruct (yield_keeps X Main w0 w K) as (w1 & t1 & E & K1 & L1).
  apply (runs_step _ _ _ _ _ _ _ _ E). apply H; assumption.
Qed.

Lemma runs_recv_keeps {B} X (k : Signal -> M B) w0 w Q :
  Run_keeps w0 w ->
  (forall sig w1,
      Run_keeps w0 w1 ->
      webSocketClient (tailer w1) = webSocketClient (tailer w) ->
      runs (k sig) Main w1 (fun o2 w2 _ => Q o2 w2)) ->
  (forall w1,
      Run_keeps w0 w1 ->
      webSocketClient (tailer w1) = webSocketClient (tailer w) ->
      Q Blocked w1 /\ Q OutOfFuel w1 /\ forall c, Q (Exited c) w1) ->
  runs (bind (recv_from_interruptCh X) k) Main w (fun o w' _ => Q o w').
Proof.
  intros K Hr Hn.
  destruct (recv_loop_keeps X (sched w) Main w0 w K) as (o & w1 & t1 & E & K1 & L1).
  apply runs_bind. unfold runs at 1, recv_from_interruptCh. rewrite E.
  destruct o.
  - apply Hr; assumption.
  - apply Hn; assumption.
  - apply Hn; assumption.
  - apply Hn; assumption.
Qed.

(** [Run] leaves the configuration as it was and the channel within its
    capacity of one signal, on every path and for every schedule.  Once
    [Authorize] has succeeded the tailer holds the client built from the
    session, also when [Run] is still waiting; after a failure the client
    pointer is what it was. *)
Theorem Run_keeps_configuration_and_channel X fuel w :
  (length (interruptCh (tailer w)) <= 1)%nat ->
  let w' := snd (fst (Run X fuel Main w)) in
  cfg (tailer w') = cfg (tailer w)
  /\ (length (interruptCh (tailer w')) <= 1)%nat
  /\ match Authorize X (DeviceName (cfg (tailer w)))
             (WebSocketFeature (cfg (tailer w))) with
     | inl session =>
         webSocketClient (tailer w') = Some (client_of (cfg (tailer w)) session)
     | inr _ => webSocketClient (tailer w') = webSocketClient (tailer w)
     end.
Proof.
  intros Hb.
  assert (K : Run_keeps w w) by (split; [reflexivity|exact Hb]).
  set (Q := fun (o : Outcome (option string)) (w' : World) =>
              Run_keeps w w'
              /\ match Authorize X (DeviceName (cfg (tailer w)))
                         (WebSocketFeature (cfg (tailer w))) with
                 | inl session =>
                     webSocketClient (tailer w')
                     = Some (client_of (cfg (tailer w)) session)
                 | inr _ => webSocketClient (tailer w') = webSocketClient (tailer w)
                 end).
  assert (H : runs (Run X fuel) Main w (fun o w' _ => Q o w')).
  2:{ apply runs_elim in H. destruct H as (o & w' & t & E & (Hc & Hl) & Hcl).
      rewrite E. cbn [fst snd]. repeat split; assumption. }
  unfold Run.
  eapply runs_step; [reflexivity|].
  eapply runs_step; [reflexivity|].
  apply (runs_yield_keeps X _ w); [exact K|]. intros w1 K1 L1.
  eapply runs_step; [reflexivity|].
  eapply runs_step; [reflexivity|].
  rewrite (proj1 K1).
  unfold Q.
  destruct (Authorize X (DeviceName (cfg (tailer w)))
              (WebSocketFeature (cfg (tailer w)))) as [session|err].
  2:{ apply runs_bind. unfold runs at 1, Fatalf.
      split; [exact K1|exact L1]. }
  eapply runs_step; [reflexivity|].
  apply (runs_yield_keeps X _ w); [exact K1|]. intros w2 K2 L2.
  eapply runs_step; [reflexivity|].
  eapply runs_step; [reflexivity|].
  eapply runs_step; [reflexivity|].
  rewrite (proj1 K2).
  apply (runs_yield_keeps X _ w); [exact K2|]. intros w3 K3 L3.
  cbn in L3.
  eapply runs_step; [reflexivity|].
  assert (K3' : Run_keeps w (started w3))
    by (unfold Run_keeps; rewrite started_tailer; exact K3).
  apply (runs_yield_keeps X _ w); [exact K3'|]. intros w4 K4 L4.
  rewrite started_tailer, L3 in L4.
  eapply runs_step; [reflexivity|].
  destruct fuel as [|fuel].
  - unfold runs; cbn [for_]. split; assumption.
  - cbn [for_]. apply runs_bind. cbv beta.
    match goal with
    | |- runs _ _ _ (fun o w' t => @?P o w') =>
        apply (runs_recv_keeps X _ w w4 P); [exact K4| |]
    end.
    + intros sig w5 K5 L5.
      eapply runs_step; [reflexivity|].
      apply (runs_yield_keeps X _ w); [exact K5|]. intros w6 K6 L6.
      eapply runs_step; [reflexivity|].
      rewrite L6, L5, L4.
      eapply runs_step; [reflexivity|].
      apply (runs_yield_keeps X _ w); [exact K6|]. intros w7 K7 L7.
      cbn in L7.
      eapply runs_step; [reflexivity|].
      unfold runs; cbn [ret].
      split; [exact K7|]. rewrite L7, L6, L5, L4. reflexivity.
    + intros w5 K5 L5.
      assert (H5 : Run_keeps w w5
                   /\ webSocketClient (tailer w5)
                      = Some (client_of (cfg (tailer w)) session))
        by (split; [exact K5|rewrite L5, L4; reflexivity]).
      split; [exact H5|]. split; [exact H5|]. intros _. exact H5.
Qed.


Lemma Run_keeps_configuration_and_channel_witness :
  let w := initial cfg_human [[SigArrives Interrupt; SigArrives SIGTERM];
                              [SigArrives SIGTERM]] in
  let w' := snd (fst (Run sample_Externals 1 Main w)) in
  cfg (tailer w') = cfg_human
  /\ (length (interruptCh (tailer w')) <= 1)%nat
  /\ webSocketClient (tailer w') = Some (client_of cfg_human session_5s).
Proof.
  exact (Run_keeps_configuration_and_channel sample_Externals 1
           (initial cfg_human [[SigArrives Interrupt; SigArrives SIGTERM];
                               [SigArrives SIGTERM]])
           (le_S 0 0 (le_n 0))).
Defined.

Lemma colorizeStatus_class_witness :
  aurora.fg (colorizeStatus 503) = aurora.Red
  /\ aurora.fg (colorizeStatus 400) = aurora.Yellow
  /\ aurora.fg (colorizeStatus 399) = aurora.Green.
Proof.
  split; [apply (proj1 (colorizeStatus_class 503)); lia|].
  split; [apply (proj1 (proj2 (colorizeStatus_class 400))); lia|].
  apply (proj1 (proj2 (proj2 (colorizeStatus_class 399)))); lia.
Defined.

(** In human mode, when the decoder reports an error and leaves the payload
    variable untouched, the line printed has empty fields and the status 0 in
    green and bold. *)
Theorem undecoded_payload_line X ev g w err :
  OutputFormat (cfg (tailer w)) <> "json" ->
  Unmarshal X (websocket.EventPayload ev) zero_EventPayload
  = (zero_EventPayload, Some err) ->
  stdout_lines
    (snd (processRequestLogEvent X (websocket.mkIncomingMessage (Some ev)) g w))
  = [" [" +++ Sprintf_d X (aurora.mkValue 0 aurora.Green true) +++ "]   "].
Proof.
  intros Hf Hd. apply String.eqb_neq in Hf.
  rewrite (processRequestLogEvent_human X ev g w Hf).
  unfold human_trace. rewrite Hd. reflexivity.
Qed.

Lemma undecoded_payload_line_witness :
  stdout_lines
    (snd (processRequestLogEvent sample_Externals msg_truncated Transport
            (initial cfg_human [])))
  = [" [bold green 0]   "].
Proof.
  assert (Hf : OutputFormat (cfg (tailer (initial cfg_human []))) <> "json")
    by (simpl; discriminate).
  exact (undecoded_payload_line sample_Externals event_truncated Transport
           (initial cfg_human []) "unexpected end of JSON input" Hf eq_refl).
Defined.

End logs.
